(** * Ranking scraper: the extraction pipeline of [scripts/index.py] and the
    request handler of [scripts/app.py], embedded as Rocq functions.

    Python [str] values are [string]s holding the UTF-8 bytes of the text.
    A parsed page (a [BeautifulSoup] object) is a tree of [PageElement]s; a
    Python reference to an element of the page is the path (child indices
    from the root) of that element, so that two references to one element
    are equal and references to two equal-looking elements are not. *)

From Stdlib Require Import ZArith String Ascii.
From stdpp Require Import base option list sorting strings gmap.

Local Open Scope list_scope.
Local Open Scope stdpp_scope.

(** ** Python strings *)

Module PyStr.

Definition of_bytes (l : list nat) : string :=
  string_of_list_ascii (ascii_of_nat <$> l).

(** The characters [str.strip()] removes ([str.isspace]), as UTF-8 byte
    sequences: U+0009..U+000D, U+001C..U+0020, U+0085, U+00A0, U+1680,
    U+2000..U+200A, U+2028, U+2029, U+202F, U+205F, U+3000. *)
Definition whitespace : list string :=
  ((λ b, of_bytes [b]) <$> [9; 10; 11; 12; 13; 28; 29; 30; 31; 32])
  ++ [of_bytes [194; 133]; of_bytes [194; 160]; of_bytes [225; 154; 128]]
  ++ ((λ b, of_bytes [226; 128; b]) <$> seq 128 11)
  ++ [of_bytes [226; 128; 168]; of_bytes [226; 128; 169];
      of_bytes [226; 128; 175]; of_bytes [226; 129; 159];
      of_bytes [227; 128; 128]].

(** [drop_prefix w s] is [Some r] when [s = w ++ r]. *)
Fixpoint drop_prefix (w s : string) : option string :=
  match w, s with
  | EmptyString, _ => Some s
  | String a w', String b s' =>
      if Ascii.eqb a b then drop_prefix w' s' else None
  | String _ _, EmptyString => None
  end.

Fixpoint drop_first (ws : list string) (s : string) : option string :=
  match ws with
  | [] => None
  | w :: ws' =>
      match drop_prefix w s with
      | Some r => Some r
      | None => drop_first ws' s
      end
  end.

Fixpoint lstrip_go (ws : list string) (fuel : nat) (s : string) : string :=
  match fuel with
  | O => s
  | S fuel' =>
      match drop_first ws s with
      | Some r => lstrip_go ws fuel' r
      | None => s
      end
  end.

Definition lstrip (s : string) : string :=
  lstrip_go whitespace (String.length s) s.

Definition rstrip (s : string) : string :=
  String.rev
    (lstrip_go (String.rev <$> whitespace) (String.length s) (String.rev s)).

(** [s.strip()] *)
Definition strip (s : string) : string := rstrip (lstrip s).

(** [''.join(l)] *)
Definition join (l : list string) : string := foldr String.append "" l.

(** [len(s) == 0] *)
Definition is_empty (s : string) : bool :=
  match s with EmptyString => true | String _ _ => false end.

End PyStr.

(** ** The parsed page *)

(** A tag carries its name, its single-valued attributes ([attrs], a dict
    read with [tag[key]] and [tag.has_attr(key)]), the tokens of its [class]
    attribute (which bs4 keeps as a list) and its children.  Text is a
    [NavigableString]; [Comment] stands for the strings [get_text] does not
    see (comments, declarations, the text of scripts and styles). *)
#[warnings="-register-all"]
Inductive PageElement : Type :=
| Tag (name : string) (attrs : list (string * string))
      (class_ : list string) (contents : list PageElement)
| NavigableString (s : string)
| Comment (s : string).

(** A reference to an element of the page. *)
Definition ref : Type := list nat.

Module Soup.

Definition contents (e : PageElement) : list PageElement :=
  match e with
  | Tag _ _ _ cs => cs
  | _ => []
  end.

(** The element a reference denotes. *)
Fixpoint node_at (e : PageElement) (p : ref) : option PageElement :=
  match p with
  | [] => Some e
  | i :: p' =>
      match contents e !! i with
      | Some c => node_at c p'
      | None => None
      end
  end.

Definition under (i : nat) (d : ref * PageElement) : ref * PageElement :=
  (i :: d.1, d.2).

Section Descendants.
Variable rec : PageElement → list (ref * PageElement).

Fixpoint descendants_from (i : nat) (cs : list PageElement)
  : list (ref * PageElement) :=
  match cs with
  | [] => []
  | c :: cs' =>
      (([i], c) :: (under i <$> rec c)) ++ descendants_from (S i) cs'
  end.
End Descendants.

(** [tag.descendants]: every element below [e], in document order, with
    its position relative to [e]. *)
Fixpoint descendants (e : PageElement) : list (ref * PageElement) :=
  match e with
  | Tag _ _ _ cs => descendants_from descendants 0 cs
  | _ => []
  end.

(** Does the element match [name] and, when given, [class_]?  A class
    matches when it is one of the tag's class tokens. *)
Definition matches (name : string) (class_ : option string)
    (e : PageElement) : bool :=
  match e with
  | Tag n _ cls _ =>
      String.eqb n name
      && match class_ with
         | None => true
         | Some k => existsb (String.eqb k) cls
         end
  | _ => false
  end.

(** [tag.find_all(name, class_=...)] on the element at [p]. *)
Definition find_all (soup : PageElement) (p : ref) (name : string)
    (class_ : option string) : list ref :=
  match node_at soup p with
  | Some e =>
      (λ d, p ++ d.1)
        <$> filter (λ d, matches name class_ d.2) (descendants e)
  | None => []
  end.

(** [tag.find(name, class_=...)]: the first match, or [None]. *)
Definition find (soup : PageElement) (p : ref) (name : string)
    (class_ : option string) : option ref :=
  head (find_all soup p name class_).

(** The proper prefixes of a path, shortest first. *)
Fixpoint proper_prefixes (p : ref) : list ref :=
  match p with
  | [] => []
  | i :: p' => [] :: (cons i <$> proper_prefixes p')
  end.

(** [tag.parents]: nearest first, up to the root. *)
Definition parents (p : ref) : list ref := reverse (proper_prefixes p).

Definition has_name (soup : PageElement) (name : string) (p : ref) : bool :=
  match node_at soup p with
  | Some e => matches name None e
  | None => false
  end.

(** [tag.find_parent(name)]: the nearest enclosing tag of that name. *)
Definition find_parent (soup : PageElement) (p : ref) (name : string)
    : option ref :=
  list_find (has_name soup name) (parents p) ≫= λ r, Some r.2.

(** The strings below an element that [get_text] visits, in document
    order (comments are skipped). *)
Fixpoint all_strings (e : PageElement) : list string :=
  match e with
  | Tag _ _ _ cs => flat_map all_strings cs
  | NavigableString s => [s]
  | Comment _ => []
  end.

(** [tag.get_text(strip=True)]: every string stripped, the empty ones
    dropped, the rest joined without a separator. *)
Definition text_of (e : PageElement) : string :=
  PyStr.join
    (filter (λ s, negb (PyStr.is_empty s)) (PyStr.strip <$> all_strings e)).

Definition get_text (soup : PageElement) (p : ref) : string :=
  match node_at soup p with
  | Some e => text_of e
  | None => ""
  end.

(** [tag.has_attr(key)] and [tag[key]]. *)
Definition attrs_of (soup : PageElement) (p : ref)
    : list (string * string) :=
  match node_at soup p with
  | Some (Tag _ a _ _) => a
  | _ => []
  end.

Fixpoint lookup_attr (key : string) (a : list (string * string))
    : option string :=
  match a with
  | [] => None
  | (k, v) :: a' => if String.eqb k key then Some v else lookup_attr key a'
  end.

Definition get_attr (soup : PageElement) (p : ref) (key : string)
    : option string :=
  lookup_attr key (attrs_of soup p).

(** Document order on references: an element comes before the elements
    below it and before everything that follows it. *)
Fixpoint ref_lt (p q : ref) : Prop :=
  match p, q with
  | [], [] => False
  | [], _ :: _ => True
  | _ :: _, [] => False
  | i :: p', j :: q' => i < j ∨ (i = j ∧ ref_lt p' q')
  end.

(** The same order on the elements listed by [descendants]. *)
Definition desc_lt (a b : ref * PageElement) : Prop := ref_lt a.1 b.1.

(** [descendants] lists exactly the elements strictly below [e], each with
    its position. *)
Definition descendants_ok (e : PageElement) : Prop :=
  ∀ p x, (p, x) ∈ descendants e ↔ p ≠ [] ∧ node_at e p = Some x.

End Soup.

(** ** Exceptions, the outside world and the monad of the scripts *)

Inductive exn : Type :=
| RequestException (msg : string)
    (* requests.exceptions.RequestException and its subclasses, as raised by
       requests.get: ConnectionError, Timeout, MissingSchema,
       ContentDecodingError, ... *)
| HTTPError (status : Z)
    (* the RequestException subclass raised by raise_for_status *)
| FileNotFoundError (path : string)
| FileExistsError (path : string)
| NotADirectoryError (path : string)
| IsADirectoryError (path : string)
| OSError (msg : string)
    (* any other refusal of the operating system: PermissionError, a name
       that is too long, no space left, ... *)
| ValueError (msg : string)
| AttributeError (msg : string).

Definition is_RequestException (e : exn) : bool :=
  match e with
  | RequestException _ | HTTPError _ => true
  | _ => false
  end.

Inductive result (A : Type) : Type :=
| Ok (a : A)
| Raise (e : exn).
Arguments Ok {A} a.
Arguments Raise {A} e.

(** What a run does to the outside, in order. *)
Inductive Event : Type :=
| EvPrint (line : string)
| EvMakedirs (name : string)
| EvWrite (path : string) (data : string).

(** The world a script runs in: the directories that exist, the regular
    files and what they hold, both under the path strings they were made
    with, and the log of what the run did so far.  What else the operating
    system looks at (permissions, limits on names, free space, other names
    of the same file) is not in the record: the environment decides it, see
    [os_refuses]. *)
Record World : Type := mkWorld {
  dirs : gset string;
  files : gmap string string;
  events : list Event
}.

Definition M (A : Type) : Type := World → result A * World.

Definition ret {A} (a : A) : M A := λ w, (Ok a, w).
Definition raise {A} (e : exn) : M A := λ w, (Raise e, w).
Definition bind {A B} (c : M A) (k : A → M B) : M B :=
  λ w, match c w with
       | (Ok a, w') => k a w'
       | (Raise e, w') => (Raise e, w')
       end.

Notation "'let!' x ':=' c 'in' k" := (bind c (λ x, k))
  (at level 10, x name, c at level 200, k at level 200).
Notation "'do!' c 'in' k" := (bind c (λ _, k))
  (at level 10, c at level 200, k at level 200).

(** [try: body except <class> as e: handler e] *)
Definition try_except {A} (body : M A) (caught : exn → bool)
    (handler : exn → M A) : M A :=
  λ w, match body w with
       | (Raise e, w') => if caught e then handler e w' else (Raise e, w')
       | r => r
       end.

Definition log (ev : Event) : M unit :=
  λ w, (Ok (), mkWorld (dirs w) (files w) (events w ++ [ev])).

Definition print (line : string) : M unit := log (EvPrint line).

(** [for x in l: acc = body acc x], leaving at the first exception. *)
Fixpoint for_each {A S} (l : list A) (acc : S) (body : S → A → M S) : M S :=
  match l with
  | [] => ret acc
  | x :: l' => let! acc' := body acc x in for_each l' acc' body
  end.

(** [l[:n]] for a Python int [n]: a negative [n] counts from the end. *)
Definition slice_to {A} (l : list A) (n : Z) : list A :=
  if (0 <=? n)%Z then take (Z.to_nat n) l
  else take (length l - Z.to_nat (- n)) l.

(** ** Extraction ([index.py], [get_header_text] and [extract_rankings]) *)

Record RankingEntry : Type := mkEntry {
  Header : string;
  Rank : string;
  Price : string;
  Shipping : string;
  Stock : string;
  Shop_Name : string;
  Shop_URL : string;
  Shop_Area : string
}.

(** The texts used when a lookup finds nothing; the specification calls them
    "no header info", "no price info", "no shipping info", "no stock info",
    "no shop name", "no URL" and "no area info". *)
Module Sentinel.
Definition no_header_info : string := "ヘッダー情報なし".
Definition no_price_info : string := "価格情報なし".
Definition no_shipping_info : string := "配送情報なし".
Definition no_stock_info : string := "在庫情報なし".
Definition no_shop_name : string := "ショップ名なし".
Definition no_URL : string := "URLなし".
Definition no_area_info : string := "エリア情報なし".
End Sentinel.

Definition get_header_text (soup : PageElement) : string :=
  let header := Soup.find soup [] "h1" None in
  let header_text :=
    match header with
    | Some h => Soup.get_text soup h
    | None => Sentinel.no_header_info
    end in
  header_text.

(** The body of the loop of [extract_rankings]: [rankings] is the list built
    so far, and [continue] leaves it as it is. *)
Definition extract_row (soup : PageElement) (header_text : string)
    (rankings : list RankingEntry) (rank_section : ref)
    : M (list RankingEntry) :=
  match Soup.find_parent soup rank_section "tr" with
  | None => ret rankings
  | Some parent_tr =>
      let rank_number_tag := Soup.find soup parent_tr "span" (Some "p-PTRank") in
      let! rank_number_text :=
        match rank_number_tag with
        | Some t => ret (Soup.get_text soup t)
        | None =>
            raise (AttributeError
                     "'NoneType' object has no attribute 'get_text'")
        end in
      let price_tag := Soup.find soup parent_tr "p" (Some "p-PTPrice_price") in
      let price_sub_tag := Soup.find soup parent_tr "p" (Some "p-PTPrice_sub") in
      let price_sub_tag_text :=
        match price_sub_tag with
        | Some t => Soup.get_text soup t
        | None => ""
        end in
      let price_text :=
        match price_tag, price_sub_tag with
        | Some t, Some _ => Soup.get_text soup t +:+ price_sub_tag_text
        | _, _ => Sentinel.no_price_info
        end in
      let shipping_tag :=
        Soup.find soup parent_tr "button" (Some "p-PTShipping_btn") in
      let shipping_text :=
        match shipping_tag with
        | Some t => Soup.get_text soup t
        | None => Sentinel.no_shipping_info
        end in
      let stock_tag := Soup.find soup parent_tr "p" (Some "p-PTStock") in
      let stock_text :=
        match stock_tag with
        | Some t => Soup.get_text soup t
        | None => Sentinel.no_stock_info
        end in
      let shop_tag :=
        Soup.find soup parent_tr "a" (Some "p-PTShopData_name_link") in
      let shop_name :=
        match shop_tag with
        | Some t => Soup.get_text soup t
        | None => Sentinel.no_shop_name
        end in
      let shop_url :=
        match shop_tag with
        | Some t =>
            match Soup.get_attr soup t "href" with
            | Some v => v
            | None => Sentinel.no_URL
            end
        | None => Sentinel.no_URL
        end in
      let shop_area_tag :=
        Soup.find soup parent_tr "span" (Some "p-PTShopData_name_area") in
      let shop_area_text :=
        match shop_area_tag with
        | Some t => Soup.get_text soup t
        | None => Sentinel.no_area_info
        end in
      ret (rankings ++ [ {| Header := header_text;
                            Rank := rank_number_text;
                            Price := price_text;
                            Shipping := shipping_text;
                            Stock := stock_text;
                            Shop_Name := shop_name;
                            Shop_URL := shop_url;
                            Shop_Area := shop_area_text |} ])
  end.

Definition extract_rankings (soup : PageElement) (top_n : Z)
    : M (list RankingEntry) :=
  let rankings : list RankingEntry := [] in
  let ranking_sections := Soup.find_all soup [] "span" (Some "p-PTRank") in
  match ranking_sections with
  | [] =>
      do! print "ランキングリストが見つかりませんでした。" in
      ret rankings
  | _ :: _ =>
      let header_text := get_header_text soup in
      for_each (slice_to ranking_sections top_n) rankings
               (extract_row soup header_text)
  end.

(** The entry the loop body appends for one ranking marker, if any. *)
Definition entry_of (soup : PageElement) (header_text : string)
    (rank_section : ref) : option RankingEntry :=
  match (extract_row soup header_text [] rank_section (mkWorld ∅ ∅ [])).1 with
  | Ok [e] => Some e
  | _ => None
  end.

(** The ranking markers of a page, [soup.find_all('span', class_='p-PTRank')]. *)
Definition markers (soup : PageElement) : list ref :=
  Soup.find_all soup [] "span" (Some "p-PTRank").

(** The enclosing row of a marker, [rank_section.find_parent('tr')]. *)
Definition row_of (soup : PageElement) (m : ref) : option ref :=
  Soup.find_parent soup m "tr".

(** ** Paths ([posixpath]) *)

Module PosixPath.

(** [(p[:i], p[i:])] for [i = p.rfind('/') + 1]. *)
Fixpoint rsplit (p : string) : string * string :=
  match p with
  | EmptyString => ("", "")
  | String c r =>
      let '(h, t) := rsplit r in
      if Ascii.eqb c "/" || negb (PyStr.is_empty h)
      then (String c h, t)
      else ("", String c t)
  end.

(** [head == '/' * len(head)] *)
Fixpoint all_slashes (h : string) : bool :=
  match h with
  | EmptyString => true
  | String c r => Ascii.eqb c "/" && all_slashes r
  end.

(** [head.rstrip('/')] *)
Fixpoint rstrip_slashes (h : string) : string :=
  match h with
  | EmptyString => ""
  | String c r =>
      let r' := rstrip_slashes r in
      if PyStr.is_empty r' && Ascii.eqb c "/" then "" else String c r'
  end.

(** [os.path.dirname(p)] *)
Definition dirname (p : string) : string :=
  let head := (rsplit p).1 in
  if negb (PyStr.is_empty head) && negb (all_slashes head)
  then rstrip_slashes head
  else head.

(** [os.path.basename(p)] *)
Definition basename (p : string) : string := (rsplit p).2.

(** A directory and the directories above it. *)
Fixpoint lineage (fuel : nat) (name : string) : list string :=
  match fuel with
  | O => []
  | S fuel' =>
      if PyStr.is_empty name then []
      else name :: lineage fuel' (dirname name)
  end.

(** ['/' in p]: a path without a slash is a bare file name. *)
Fixpoint has_slash (p : string) : bool :=
  match p with
  | EmptyString => false
  | String c r => Ascii.eqb c "/" || has_slash r
  end.

End PosixPath.

(** ** The file system and the network *)

(** A [requests.Response]: [text] is the body decoded under an encoding. *)
Record Response : Type := mkResponse {
  status_code : Z;
  apparent_encoding : string;
  text : string → string
}.

(** A request to the operating system: [os.mkdir] on the way of
    [os.makedirs(name)], and [open(path, 'w')]. *)
Inductive Syscall : Type :=
| SysMkdir (name : string)
| SysOpen (path : string).

(** The parts of the libraries and of the system the scripts call and the
    model leaves open: the answer of the network to
    [requests.get(url, headers=headers)], the parser
    [BeautifulSoup(text, 'html.parser')], [str(soup)], the text
    [DataFrame(rows).to_csv(index=False)] writes, [str(e)], and
    [os_refuses]: the error, if any, with which the operating system
    refuses a request for a reason the world does not record. *)
Record Env : Type := mkEnv {
  requests_get : string → list (string * string) → result Response;
  html_parser : string → PageElement;
  soup_str : PageElement → string;
  to_csv : list RankingEntry → string;
  exn_str : exn → string;
  os_refuses : Syscall → World → option exn
}.

(** A regular file has this name. *)
Definition taken_by_file (w : World) (name : string) : bool :=
  bool_decide (is_Some (files w !! name)).

(** The directory [name] and the directories above it, deepest first. *)
Definition lineage_of (name : string) : list string :=
  PosixPath.lineage (String.length name) name.

(** Of the directories [os.makedirs(name)] has to make, the one that stands
    directly below a regular file, if there is one. *)
Definition below_a_file (w : World) (name : string) : option string :=
  last ((λ cp, cp.1)
          <$> filter (λ cp, taken_by_file w cp.2)
                     (zip (lineage_of name) (tail (lineage_of name)))).

(** [os.makedirs(name, exist_ok=True)].  The empty name is refused.
    Otherwise the system may refuse for a reason of its own; a regular file
    of that name gives [FileExistsError], and a regular file above it gives
    [NotADirectoryError]; a directory that is already there is no error.
    After a success the directory and those above it exist. *)
Definition makedirs (env : Env) (name : string) : M unit :=
  λ w,
    if PyStr.is_empty name then (Raise (FileNotFoundError name), w)
    else
      match os_refuses env (SysMkdir name) w with
      | Some e => (Raise e, w)
      | None =>
          if taken_by_file w name then (Raise (FileExistsError name), w)
          else
            match below_a_file w name with
            | Some child => (Raise (NotADirectoryError child), w)
            | None =>
                (Ok (),
                 mkWorld (list_to_set (lineage_of name) ∪ dirs w)
                         (files w)
                         (events w ++ [EvMakedirs name]))
            end
      end.

(** The last component of a path that names a directory and no file: the
    empty one (the path ends in a slash), [.] and [..]. *)
Definition names_directory (base : string) : bool :=
  PyStr.is_empty base || String.eqb base "." || String.eqb base "..".

(** [with open(path, 'w') as f: f.write(data)].  The empty path is refused.
    Otherwise the system may refuse for a reason of its own; the directory
    of the path has to exist (the working directory always does), and the
    path must not name a directory. *)
Definition write_file (env : Env) (path data : string) : M unit :=
  λ w,
    if PyStr.is_empty path then (Raise (FileNotFoundError path), w)
    else
      match os_refuses env (SysOpen path) w with
      | Some e => (Raise e, w)
      | None =>
          if negb (PyStr.is_empty (PosixPath.dirname path))
             && negb (bool_decide (PosixPath.dirname path ∈ dirs w))
          then (Raise (FileNotFoundError path), w)
          else if names_directory (PosixPath.basename path)
                  || bool_decide (path ∈ dirs w)
          then (Raise (IsADirectoryError path), w)
          else
            (Ok (),
             mkWorld (dirs w) (<[path := data]> (files w))
                     (events w ++ [EvWrite path data]))
      end.

(** What [save_to_csv] is handed: a dict, a list, or something else. *)
Inductive PyData : Type :=
| PyDict (d : RankingEntry)
| PyList (l : list RankingEntry)
| PyOther.

(** The body of the answer of the handler, [jsonify({...})]. *)
Inductive Json : Type :=
| JsonError (msg : string)
| JsonMessage (msg : string)
| JsonRankings (rankings : list RankingEntry).

(** ** The pipeline ([index.py]) and the handler ([app.py]) *)

(** The [headers] dict of [scrape_urls]. *)
Definition headers : list (string * string) :=
  [("User-Agent", "Mozilla/5.0 (Windows NT 10.0; Win64; x64)")].

Section Scripts.
Variable env : Env.

(** [response.raise_for_status()] *)
Definition raise_for_status (response : Response) : M unit :=
  if (400 <=? status_code response)%Z && (status_code response <? 600)%Z
  then raise (HTTPError (status_code response))
  else ret ().

Definition fetch_html (target_url : string) (headers : list (string * string))
    : M (option PageElement) :=
  try_except
    (let! response := (λ w, (requests_get env target_url headers, w)) in
     let encoding := apparent_encoding response in
     do! print ("Detected encoding: " +:+ encoding) in
     do! raise_for_status response in
     ret (Some (html_parser env (text response encoding))))
    is_RequestException
    (λ e,
       do! print ("Failed to retrieve data from " +:+ target_url +:+ ": "
                  +:+ exn_str env e) in
       ret None).

Definition save_to_csv (data : PyData) (filepath : string) : M unit :=
  do! makedirs env (PosixPath.dirname filepath) in
  let! df :=
    match data with
    | PyDict d => ret [d]
    | PyList l => ret l
    | PyOther =>
        raise (ValueError
                 "保存するデータはリストまたは辞書形式である必要があります。")
    end in
  do! write_file env filepath (to_csv env df) in
  print ("データが '" +:+ filepath +:+ "' に保存されました。").

Definition save_html (soup : PageElement) (filepath : string) : M unit :=
  do! makedirs env (PosixPath.dirname filepath) in
  do! write_file env filepath (soup_str env soup) in
  print ("HTMLが '" +:+ filepath +:+ "' に保存されました。").

(** [scrape_urls] has no [return] with a value: every path gives [None]. *)
Definition scrape_urls (target_url output_html rankings_csv : string)
    : M (option (list RankingEntry)) :=
  let! soup := fetch_html target_url headers in
  match soup with
  | None => ret None
  | Some soup =>
      do! save_html soup output_html in
      let! rankings := extract_rankings soup 20 in
      match rankings with
      | _ :: _ =>
          do! save_to_csv (PyList rankings) rankings_csv in
          ret None
      | [] =>
          do! print "ランキング情報が存在しませんでした。" in
          ret None
      end
  end.

(** [main] of [index.py]. *)
Definition main : M (option (list RankingEntry)) :=
  let target_url := "https://kakaku.com/item/J0000037910/" in
  let output_html := "data/fetched.html" in
  let rankings_csv := "data/top10_rankings.csv" in
  scrape_urls target_url output_html rankings_csv.

(** The artifact paths the handler derives from the identifier. *)
Definition output_html_of (item_id : string) : string :=
  "data/fetched_" +:+ item_id +:+ ".html".
Definition rankings_csv_of (item_id : string) : string :=
  "data/top10_rankings_" +:+ item_id +:+ ".csv".

(** [scrape_api]: [item_id] is [request.args.get('itemId')]; the answer is
    the JSON body and the status code. *)
Definition scrape_api (item_id : option string) : M (Json * Z) :=
  match item_id with
  | None | Some EmptyString =>
      ret (JsonError "itemId パラメータが必要です。", 400%Z)
  | Some item_id =>
      let output_html := output_html_of item_id in
      let rankings_csv := rankings_csv_of item_id in
      let! rankings := scrape_urls item_id output_html rankings_csv in
      match rankings with
      | None => ret (JsonError "データの取得に失敗しました。", 500%Z)
      | Some [] => ret (JsonMessage "ランキング情報が存在しません。", 404%Z)
      | Some ((_ :: _) as rankings) => ret (JsonRankings rankings, 200%Z)
      end
  end.

End Scripts.

(** ** Pages and environments used as examples *)

Module Pages.

Definition marker (rank : string) : PageElement :=
  Tag "span" [] ["p-PTRank"] [NavigableString rank].

(** Scenario A of the specification: one complete row. *)
Definition row_A (link_attrs : list (string * string)) : PageElement :=
  Tag "tr" [] [] [
    Tag "td" [] [] [marker " 1 "];
    Tag "td" [] [] [
      Tag "p" [] ["p-PTPrice_price"] [NavigableString "¥1,000"];
      Tag "p" [] ["p-PTPrice_sub"] [NavigableString "(tax incl.)"]];
    Tag "td" [] [] [
      Tag "button" [] ["p-PTShipping_btn"] [NavigableString "Free"]];
    Tag "td" [] [] [Tag "p" [] ["p-PTStock"] [NavigableString "In stock"]];
    Tag "td" [] [] [
      Tag "a" link_attrs ["p-PTShopData_name_link"] [NavigableString "Shop A"];
      Tag "span" [] ["p-PTShopData_name_area"] [NavigableString "Tokyo"]]].

Definition scenario_A : PageElement :=
  Tag "[document]" [] [] [
    Tag "h1" [] [] [NavigableString "Widget X"];
    Tag "table" [] [] [row_A [("href", "https://shopa.example")]]].

(** Scenario B: the shop link has no [href]. *)
Definition scenario_B : PageElement :=
  Tag "[document]" [] [] [
    Tag "h1" [] [] [NavigableString "Widget X"];
    Tag "table" [] [] [row_A []]].

(** A marker that no row encloses. *)
Definition orphan_marker : PageElement :=
  Tag "[document]" [] [] [Tag "div" [] [] [marker "1"]].

(** A row after a marker that no row encloses. *)
Definition orphan_then_row : PageElement :=
  Tag "[document]" [] [] [
    Tag "div" [] [] [marker "0"];
    Tag "table" [] [] [Tag "tr" [] [] [Tag "td" [] [] [marker "1"]]]].

(** A heading without text above one row that has only its marker. *)
Definition empty_heading : PageElement :=
  Tag "[document]" [] [] [
    Tag "h1" [] [] [];
    Tag "table" [] [] [Tag "tr" [] [] [Tag "td" [] [] [marker "1"]]]].

(** One row that holds two markers. *)
Definition twin_markers : PageElement :=
  Tag "[document]" [] [] [
    Tag "table" [] [] [
      Tag "tr" [] [] [
        Tag "td" [] [] [marker "1"];
        Tag "td" [] [] [marker "2"]]]].

(** A row with a price but no secondary price. *)
Definition price_only : PageElement :=
  Tag "[document]" [] [] [
    Tag "table" [] [] [
      Tag "tr" [] [] [
        Tag "td" [] [] [marker "1"];
        Tag "td" [] [] [
          Tag "p" [] ["p-PTPrice_price"] [NavigableString "¥1,000"]]]]].

(** A page without markers. *)
Definition no_markers : PageElement :=
  Tag "[document]" [] [] [Tag "h1" [] [] [NavigableString "Widget X"]].

Definition empty_world : World := mkWorld ∅ ∅ [].

(** An environment in which the network answers [answer] to every request,
    the parser reads [page] from every body, and the operating system
    refuses nothing for a reason of its own. *)
Definition env_of (answer : result Response) (page : PageElement) : Env :=
  {| requests_get := λ _ _, answer;
     html_parser := λ _, page;
     soup_str := λ _, "<html>";
     to_csv := λ rows, "csv";
     exn_str := λ _, "error";
     os_refuses := λ _ _, None |}.

Definition response (status : Z) : Response :=
  {| status_code := status; apparent_encoding := "utf-8"; text := λ _, "" |}.

End Pages.

(** ** Vocabulary of the claims *)

(** The lookup-or-sentinel rule of the loop body. *)
Definition or_sentinel (soup : PageElement) (tag : option ref)
    (sentinel : string) : string :=
  match tag with
  | Some t => Soup.get_text soup t
  | None => sentinel
  end.

(** What [extract_rankings] prints. *)
Definition extract_log (soup : PageElement) : list Event :=
  match markers soup with
  | [] => [EvPrint "ランキングリストが見つかりませんでした。"]
  | _ :: _ => []
  end.

Definition logged (w : World) (evs : list Event) : World :=
  mkWorld (dirs w) (files w) (events w ++ evs).

(** The fetch of [url] fails: [requests.get] raises a [RequestException]
    (no connection, a timeout, a body that cannot be decoded, ...) or the
    answer carries a status that [raise_for_status] refuses (4xx, 5xx). *)
Definition fetch_fails (env : Env) (url : string) : Prop :=
  match requests_get env url headers with
  | Raise e => is_RequestException e = true
  | Ok response => (400 ≤ status_code response < 600)%Z
  end.

(** The rows [save_to_csv] makes a frame of, when it accepts the data. *)
Definition rows_of_data (data : PyData) : option (list RankingEntry) :=
  match data with
  | PyDict d => Some [d]
  | PyList l => Some l
  | PyOther => None
  end.

(** The world after [os.makedirs(name, exist_ok=True)]. *)
Definition made (name : string) (w : World) : World :=
  mkWorld (list_to_set (lineage_of name) ∪ dirs w)
          (files w) (events w ++ [EvMakedirs name]).

(** The system lets the directory [name] be made, or be there already: it
    does not refuse for a reason of its own, and no regular file has the
    name of the directory or of a directory above it. *)
Definition directory_accepted (env : Env) (name : string) (w : World)
    : bool :=
  match os_refuses env (SysMkdir name) w with
  | Some _ => false
  | None => forallb (λ n, negb (taken_by_file w n)) (lineage_of name)
  end.

(** The system lets [path] be opened for writing: it does not refuse for a
    reason of its own, and the path names a file and no directory. *)
Definition file_accepted (env : Env) (path : string) (w : World) : bool :=
  match os_refuses env (SysOpen path) w with
  | Some _ => false
  | None =>
      negb (names_directory (PosixPath.basename path))
      && negb (bool_decide (path ∈ dirs w))
  end.

(** The world after a write. *)
Definition written (path data : string) (w : World) : World :=
  mkWorld (dirs w) (<[path := data]> (files w))
          (events w ++ [EvWrite path data]).

(** The line [save_html] prints, and the one [save_to_csv] prints. *)
Definition html_saved (path : string) : Event :=
  EvPrint ("HTMLが '" +:+ path +:+ "' に保存されました。").
Definition csv_saved (path : string) : Event :=
  EvPrint ("データが '" +:+ path +:+ "' に保存されました。").

(** The world after [save_html] wrote [data] to [path]. *)
Definition html_stored (path data : string) (w : World) : World :=
  logged
    (written path data (made (PosixPath.dirname path) w))
    [html_saved path].

(** The world after [save_to_csv] wrote [data] to [path]. *)
Definition csv_stored (path data : string) (w : World) : World :=
  logged
    (written path data (made (PosixPath.dirname path) w))
    [csv_saved path].

(** Both persistence operations raise in the directory step and leave
    the world as it was. *)
Definition bare_name_refused (env : Env) (path : string) (w : World) : Prop :=
  (∀ soup, save_html env soup path w = (Raise (FileNotFoundError ""), w))
  ∧ (∀ data, save_to_csv env data path w = (Raise (FileNotFoundError ""), w)).

(** What the specification states of a path with a directory part: the
    directory step succeeds. *)
Definition directory_step_returns (env : Env) (path : string) (w : World)
    : Prop :=
  ∃ w1, makedirs env (PosixPath.dirname path) w = (Ok (), w1).

(** The directory step succeeds, the directory exists afterwards, and both
    persistence operations go on with the write in the world [w1] it leaves;
    the write stores the data when the system accepts the path as a file. *)
Definition directory_step_succeeds (env : Env) (path : string) (w : World)
    : Prop :=
  ∃ w1, makedirs env (PosixPath.dirname path) w = (Ok (), w1)
    ∧ PosixPath.dirname path ∈ dirs w1
    ∧ files w1 = files w
    ∧ (∀ soup,
         save_html env soup path w
         = (do! write_file env path (soup_str env soup) in
            print ("HTMLが '" +:+ path +:+ "' に保存されました。")) w1)
    ∧ (∀ data rows, rows_of_data data = Some rows →
         save_to_csv env data path w
         = (do! write_file env path (to_csv env rows) in
            print ("データが '" +:+ path +:+ "' に保存されました。")) w1)
    ∧ (file_accepted env path w1 = true →
       (∀ soup, ∃ w2, save_html env soup path w = (Ok (), w2)
          ∧ files w2 !! path = Some (soup_str env soup))
       ∧ (∀ rows, ∃ w2, save_to_csv env (PyList rows) path w = (Ok (), w2)
            ∧ files w2 !! path = Some (to_csv env rows))).

(** The price rule of the loop body, as the specification words it: both
    tags present gives the two trimmed texts joined; otherwise the
    sentinel. *)
Definition price_rule (soup : PageElement) (row : ref) (price : string)
    : Prop :=
  match Soup.find soup row "p" (Some "p-PTPrice_price"),
        Soup.find soup row "p" (Some "p-PTPrice_sub") with
  | Some a, Some b => price = Soup.get_text soup a +:+ Soup.get_text soup b
  | _, _ => price = Sentinel.no_price_info
  end.

(** The rule of the shop URL: the [href] of the shop link, when there is a
    link and it has one. *)
Definition url_rule (soup : PageElement) (row : ref) (url : string) : Prop :=
  match Soup.find soup row "a" (Some "p-PTShopData_name_link") with
  | Some t =>
      match Soup.get_attr soup t "href" with
      | Some v => url = v
      | None => url = Sentinel.no_URL
      end
  | None => url = Sentinel.no_URL
  end.

(** The count the specification states: [min(K, N)] entries for a page
    with [K] markers and [topN = N]. *)
Definition returns_min_K_N (soup : PageElement) (top_n : Z) (w : World)
    : Prop :=
  ∃ es, (extract_rankings soup top_n w).1 = Ok es
    ∧ Z.of_nat (length es) = Z.min (Z.of_nat (length (markers soup))) top_n.

(** No field of the entry is the empty string. *)
Definition all_fields_nonempty (e : RankingEntry) : Prop :=
  Header e ≠ "" ∧ Rank e ≠ "" ∧ Price e ≠ "" ∧ Shipping e ≠ ""
  ∧ Stock e ≠ "" ∧ Shop_Name e ≠ "" ∧ Shop_URL e ≠ "" ∧ Shop_Area e ≠ "".

(** The field [v] read through the lookup [tag] is empty only when the
    lookup found an element whose trimmed text is empty. *)
Definition empty_only_from (soup : PageElement) (tag : option ref)
    (v : string) : Prop :=
  v = "" → ∃ t, tag = Some t ∧ Soup.get_text soup t = "".

(** The field [v] is resolved from the lookup [tag]: it is the trimmed text
    of the element found, and the sentinel, which is not empty, when none
    is found; so it is empty only when an element was found whose trimmed
    text is empty. *)
Definition resolves_to (soup : PageElement) (tag : option ref)
    (sentinel v : string) : Prop :=
  v = or_sentinel soup tag sentinel
  ∧ sentinel ≠ ""
  ∧ empty_only_from soup tag v.

(** A computation that leaves every directory in place, changes no file
    outside [paths], and only adds to the log; this holds for the world it
    leaves whether it returns or raises. *)
Definition touches_only {A} (paths : list string) (c : M A) : Prop :=
  ∀ w,
    dirs w ⊆ dirs (c w).2
    ∧ (∀ p, p ∉ paths → files (c w).2 !! p = files w !! p)
    ∧ events w `prefix_of` events (c w).2.

(** [find] relative to an element: the position, below [e], of the first
    element that matches. *)
Definition find_below (e : PageElement) (name : string)
    (class_ : option string) : option ref :=
  head ((λ d, d.1) <$> filter (λ d, Soup.matches name class_ d.2)
                              (Soup.descendants e)).

(** A row nested in a cell of another row, each with its own marker, and
    the same inner row as a page of its own. *)
Definition inner_row : PageElement :=
  Tag "tr" [] [] [
    Tag "td" [] [] [Pages.marker "2"];
    Tag "td" [] [] [
      Tag "p" [] ["p-PTStock"] [NavigableString "In stock"]]].

Definition nested_rows : PageElement :=
  Tag "[document]" [] [] [
    Tag "table" [] [] [
      Tag "tr" [] [] [
        Tag "td" [] [] [Pages.marker "1"];
        Tag "td" [] [] [Tag "table" [] [] [inner_row]]]]].

Definition inner_row_alone : PageElement :=
  Tag "[document]" [] [] [Tag "table" [] [] [inner_row]].

(** ** Facts about the page tree *)

Module SoupFacts.
Import Soup.

Lemma PageElement_nested_ind (P : PageElement → Prop) :
  (∀ n a c cs, Forall P cs → P (Tag n a c cs)) →
  (∀ s, P (NavigableString s)) →
  (∀ s, P (Comment s)) →
  ∀ e, P e.
Proof.
  intros HT HS HC. fix IH 1. intros [n a c cs|s|s]; [|apply HS|apply HC].
  apply HT. induction cs as [|c' cs IHcs]; constructor; [apply IH|exact IHcs].
Qed.

Lemma node_at_app e p q :
  node_at e (p ++ q) = node_at e p ≫= λ n, node_at n q.
Proof.
  revert e. induction p as [|i p IH]; intros e; simpl; [done|].
  destruct (contents e !! i); simpl; [apply IH|done].
Qed.

Lemma elem_of_descendants_from cs i p x :
  Forall descendants_ok cs →
  (p, x) ∈ descendants_from descendants i cs ↔
  ∃ j c q, p = (i + j) :: q ∧ cs !! j = Some c ∧ node_at c q = Some x.
Proof.
  intros Hcs. revert i. induction Hcs as [|c cs Hc Hcs IH]; intros i; simpl.
  { split; [by intros ?%elem_of_nil|by intros (j & c & q & _ & ? & _)]. }
  rewrite elem_of_cons, elem_of_app, list_elem_of_fmap, IH. split.
  - intros [Heq|[((q & y) & Heq & Hin)|(j & c' & q & -> & Hj & Hq)]].
    + injection Heq as -> ->. exists 0, c, []. by rewrite Nat.add_0_r.
    + injection Heq as -> ->. apply Hc in Hin as [_ Hq].
      exists 0, c, q. by rewrite Nat.add_0_r.
    + exists (S j), c', q. split; [f_equal; lia|done].
  - intros ([|j] & c' & q & -> & Hj & Hq); simpl in Hj.
    + injection Hj as <-. rewrite Nat.add_0_r. destruct q as [|k q].
      * injection Hq as ->. by left.
      * right; left. exists (k :: q, x). split; [done|]. by apply Hc.
    + right; right. exists j, c', q. split; [f_equal; lia|done].
Qed.

Lemma elem_of_descendants e : descendants_ok e.
Proof.
  induction e as [n a c cs IH|s|s] using PageElement_nested_ind;
    intros p x; simpl.
  - rewrite elem_of_descendants_from by done. split.
    + intros (j & c' & q & -> & Hj & Hq). split; [done|]. simpl. by rewrite Hj.
    + intros [Hp Hx]. destruct p as [|j q]; [done|]. simpl in Hx.
      destruct (cs !! j) as [c'|] eqn:Hj; [|done]. by exists j, c', q.
  - split; [by intros ?%elem_of_nil|]. intros [Hp Hx].
    destruct p as [|j q]; [done|]. by destruct j.
  - split; [by intros ?%elem_of_nil|]. intros [Hp Hx].
    destruct p as [|j q]; [done|]. by destruct j.
Qed.

(** What [find_all] returns: the elements strictly below [p] that match. *)
Lemma elem_of_find_all soup p name cls m :
  m ∈ find_all soup p name cls ↔
  ∃ q x, m = p ++ q ∧ q ≠ [] ∧ node_at soup m = Some x
         ∧ matches name cls x = true.
Proof.
  unfold find_all. destruct (node_at soup p) as [e|] eqn:He.
  - rewrite list_elem_of_fmap. split.
    + intros ((q & x) & -> & Hin). apply list_elem_of_filter in Hin as [Hm Hin].
      apply elem_of_descendants in Hin as [Hq Hx]. exists q, x. simpl in *.
      rewrite node_at_app, He. simpl. by apply Is_true_true in Hm.
    + intros (q & x & -> & Hq & Hx & Hm). exists (q, x). split; [done|].
      apply list_elem_of_filter. split; [by apply Is_true_true|].
      apply elem_of_descendants. rewrite node_at_app, He in Hx. done.
  - split; [by intros ?%elem_of_nil|]. intros (q & x & -> & _ & Hx & _).
    by rewrite node_at_app, He in Hx.
Qed.

Lemma elem_of_proper_prefixes p r :
  r ∈ proper_prefixes p ↔ ∃ q, p = r ++ q ∧ q ≠ [].
Proof.
  revert r. induction p as [|i p IH]; intros r; simpl.
  { split; [by intros ?%elem_of_nil|]. by intros (q & ?%eq_sym%app_eq_nil & ?);
      intuition. }
  rewrite elem_of_cons, list_elem_of_fmap. split.
  - intros [->|(r' & -> & Hin)]; [by exists (i :: p)|].
    apply IH in Hin as (q & -> & Hq). by exists q.
  - intros (q & Heq & Hq). destruct r as [|j r]; [by left|right].
    injection Heq as <- ->. exists r. split; [done|]. apply IH. by exists q.
Qed.

(** What [find_parent] returns is a strict ancestor carrying that name. *)
Lemma find_parent_Some soup m name r :
  find_parent soup m name = Some r →
  (∃ q, m = r ++ q ∧ q ≠ []) ∧ has_name soup name r = true.
Proof.
  unfold find_parent. intros H.
  destruct (list_find _ _) as [[i r']|] eqn:Hf; simplify_eq/=.
  apply list_find_Some in Hf as (Hi & Hn & _). split.
  - apply elem_of_proper_prefixes. rewrite <- elem_of_reverse.
    by eapply list_elem_of_lookup_2.
  - by apply Is_true_true.
Qed.

Lemma has_name_node soup name r :
  has_name soup name r = true → is_Some (node_at soup r).
Proof. unfold has_name. destruct (node_at soup r); [eauto|done]. Qed.

(** A matching element below [r] makes [find] on [r] succeed. *)
Lemma find_is_Some soup r q x name cls :
  q ≠ [] → node_at soup (r ++ q) = Some x → matches name cls x = true →
  is_Some (find soup r name cls).
Proof.
  intros Hq Hx Hm. unfold find.
  assert (r ++ q ∈ find_all soup r name cls) as Hin.
  { apply elem_of_find_all. by exists q, x. }
  destruct (find_all soup r name cls); [by apply elem_of_nil in Hin|].
  simpl. eauto.
Qed.


Lemma ref_lt_app p a b : ref_lt a b → ref_lt (p ++ a) (p ++ b).
Proof. intros Hab. induction p as [|i p IH]; simpl; auto. Qed.

Lemma descendants_from_sorted cs i :
  Forall (λ c, StronglySorted desc_lt (descendants c)) cs →
  StronglySorted desc_lt (descendants_from descendants i cs).
Proof.
  intros Hcs. revert i. induction Hcs as [|c cs Hc Hcs IH]; intros i; simpl.
  { constructor. }
  apply (StronglySorted_app_2 _ (_ :: _)); [|apply StronglySorted_cons; split|].
  - intros [p1 x1] [p2 x2] H1 H2.
    apply elem_of_descendants_from in H2 as (j & c' & q & -> & _);
      [|apply Forall_forall; intros; apply elem_of_descendants].
    assert (∃ q1, p1 = i :: q1) as [q1 ->].
    { apply elem_of_cons in H1 as [[= -> ->]|H1]; [eauto|].
      apply list_elem_of_fmap in H1 as ([q1 y] & [= -> ->] & _). eauto. }
    unfold desc_lt. simpl. left. lia.
  - apply Forall_forall. intros [p x] ([q y] & [= -> ->] & Hin)%list_elem_of_fmap.
    apply elem_of_descendants in Hin as [Hq _]. unfold desc_lt. simpl.
    right. split; [done|]. by destruct q.
  - eapply StronglySorted_fmap; [|exact Hc].
    intros [p1 x1] [p2 x2]. unfold desc_lt. simpl. auto.
  - apply IH.
Qed.

Lemma descendants_sorted e : StronglySorted desc_lt (descendants e).
Proof.
  induction e as [n a c cs IH|s|s] using PageElement_nested_ind; simpl;
    [by apply descendants_from_sorted|constructor..].
Qed.

Lemma StronglySorted_filter {A} (R : relation A) (P : A → Prop)
    `{!∀ x, Decision (P x)} l :
  StronglySorted R l → StronglySorted R (filter P l).
Proof.
  induction 1 as [|x l Hl IH Hx]; [constructor|].
  rewrite filter_cons. destruct (decide (P x)); [|done].
  constructor; [done|]. apply Forall_forall.
  intros y [_ Hy]%list_elem_of_filter. by eapply Forall_forall in Hx.
Qed.

(** [find_all] lists its matches in document order. *)
Lemma find_all_sorted soup p name cls :
  StronglySorted ref_lt (find_all soup p name cls).
Proof.
  unfold find_all. destruct (node_at soup p) as [e|]; [|constructor].
  eapply StronglySorted_fmap;
    [|apply StronglySorted_filter, descendants_sorted].
  intros x y. apply ref_lt_app.
Qed.

Lemma head_sorted_first {A} (R : relation A) l x y :
  StronglySorted R l → head l = Some x → y ∈ l → x = y ∨ R x y.
Proof.
  destruct 1 as [|z l Hl Hz]; [done|]. intros [= ->] [->|Hy]%elem_of_cons.
  - by left.
  - right. by eapply Forall_forall in Hz.
Qed.

(** [find] returns the first match in document order. *)
Lemma find_first soup r name cls t m :
  find soup r name cls = Some t → m ∈ find_all soup r name cls →
  t = m ∨ ref_lt t m.
Proof. apply head_sorted_first, find_all_sorted. Qed.

(** A match of the whole page that lies below [r] is a match of [r]. *)
Lemma find_all_below soup r q name cls :
  q ≠ [] → r ++ q ∈ find_all soup [] name cls →
  r ++ q ∈ find_all soup r name cls.
Proof.
  intros Hq (q' & x & _ & _ & Hx & Hm)%elem_of_find_all.
  apply elem_of_find_all. by exists q, x.
Qed.

End SoupFacts.

(** ** Facts about the extraction loop *)

Module ExtractFacts.
Import Soup SoupFacts.

Lemma logged_nil w : logged w [] = w.
Proof. destruct w. unfold logged. simpl. by rewrite app_nil_r. Qed.

(** The row of a marker holds a marker: the rank lookup never fails. *)
Lemma row_has_marker soup m r :
  m ∈ markers soup → row_of soup m = Some r →
  is_Some (find soup r "span" (Some "p-PTRank")).
Proof.
  intros (q & x & _ & _ & Hx & Hm)%elem_of_find_all Hr.
  apply find_parent_Some in Hr as [(q' & -> & Hq') _].
  by eapply find_is_Some.
Qed.

Lemma entry_of_no_row soup h m :
  row_of soup m = None → entry_of soup h m = None.
Proof.
  unfold row_of, entry_of, extract_row. by intros ->.
Qed.

Lemma entry_of_inv soup h m e :
  entry_of soup h m = Some e →
  ∃ r t, row_of soup m = Some r
    ∧ find soup r "span" (Some "p-PTRank") = Some t
    ∧ Header e = h
    ∧ Rank e = get_text soup t
    ∧ Price e =
        match find soup r "p" (Some "p-PTPrice_price"),
              find soup r "p" (Some "p-PTPrice_sub") with
        | Some a, Some b => get_text soup a +:+ get_text soup b
        | _, _ => Sentinel.no_price_info
        end
    ∧ Shipping e =
        or_sentinel soup (find soup r "button" (Some "p-PTShipping_btn"))
                    Sentinel.no_shipping_info
    ∧ Stock e =
        or_sentinel soup (find soup r "p" (Some "p-PTStock"))
                    Sentinel.no_stock_info
    ∧ Shop_Name e =
        or_sentinel soup (find soup r "a" (Some "p-PTShopData_name_link"))
                    Sentinel.no_shop_name
    ∧ Shop_URL e =
        from_option id Sentinel.no_URL
          (find soup r "a" (Some "p-PTShopData_name_link")
             ≫= λ t, get_attr soup t "href")
    ∧ Shop_Area e =
        or_sentinel soup (find soup r "span" (Some "p-PTShopData_name_area"))
                    Sentinel.no_area_info.
Proof.
  unfold entry_of, row_of, extract_row.
  destruct (find_parent soup m "tr") as [r|]; [|done].
  destruct (find soup r "span" (Some "p-PTRank")) as [t|] eqn:Ht; [|done].
  unfold bind, ret. simpl. intros [= <-]. exists r, t. simpl.
  repeat split; try done.
  - by destruct (find soup r "p" (Some "p-PTPrice_price")),
                (find soup r "p" (Some "p-PTPrice_sub")).
  - destruct (find soup r "a" (Some "p-PTShopData_name_link")) as [a|];
      simpl; [|done].
    by destruct (get_attr soup a "href").
Qed.

Lemma entry_of_marker soup h m r :
  m ∈ markers soup → row_of soup m = Some r → is_Some (entry_of soup h m).
Proof.
  intros Hm Hr. destruct (row_has_marker _ _ _ Hm Hr) as [t Ht].
  unfold entry_of, extract_row. unfold row_of in Hr. rewrite Hr, Ht.
  unfold bind, ret. simpl. eauto.
Qed.

(** One turn of the loop on a marker of the page. *)
Lemma extract_row_marker soup h acc m w :
  m ∈ markers soup →
  extract_row soup h acc m w = (Ok (acc ++ option_list (entry_of soup h m)), w).
Proof.
  intros Hm. unfold entry_of, extract_row.
  destruct (find_parent soup m "tr") as [r|] eqn:Hr.
  - destruct (row_has_marker _ _ _ Hm Hr) as [t ->].
    unfold bind, ret. by simpl.
  - unfold ret. simpl. by rewrite app_nil_r.
Qed.

Lemma for_each_markers soup h l acc w :
  (∀ m, m ∈ l → m ∈ markers soup) →
  for_each l acc (extract_row soup h) w
  = (Ok (acc ++ omap (entry_of soup h) l), w).
Proof.
  revert acc. induction l as [|m l IH]; intros acc Hl; simpl.
  - unfold ret. by rewrite app_nil_r.
  - unfold bind. rewrite extract_row_marker by (apply Hl; by left).
    rewrite IH by (intros; apply Hl; by right).
    by destruct (entry_of soup h m); simpl; rewrite <- ?app_assoc, ?app_nil_r.
Qed.

Lemma elem_of_slice_to {A} (l : list A) n x : x ∈ slice_to l n → x ∈ l.
Proof.
  unfold slice_to. destruct (0 <=? n)%Z; apply subseteq_take.
Qed.

(** The run of [extract_rankings]: it never raises, and it returns the
    entries of the first [top_n] markers, skipping those without one. *)
Lemma extract_rankings_run soup top_n w :
  extract_rankings soup top_n w
  = (Ok (omap (entry_of soup (get_header_text soup))
              (slice_to (markers soup) top_n)),
     logged w (extract_log soup)).
Proof.
  unfold extract_rankings, extract_log. fold (markers soup).
  destruct (markers soup) as [|m l] eqn:Hms.
  - unfold slice_to. by destruct (0 <=? top_n)%Z; rewrite take_nil.
  - rewrite for_each_markers, logged_nil; [done|].
    intros x. rewrite Hms. apply elem_of_slice_to.
Qed.

(** The entry of a marker depends on its row only. *)
Lemma entry_of_same_row soup h m m' :
  row_of soup m = row_of soup m' → entry_of soup h m = entry_of soup h m'.
Proof. unfold row_of, entry_of, extract_row. by intros ->. Qed.

Lemma Forall2_filter_omap {A B} (f : A → option B) (P : A → Prop)
    `{!∀ x, Decision (P x)} l :
  (∀ x, x ∈ l → P x ↔ is_Some (f x)) →
  Forall2 (λ x y, f x = Some y) (filter P l) (omap f l).
Proof.
  induction l as [|x l IH]; intros Hl; [constructor|].
  rewrite filter_cons. simpl.
  assert (Forall2 (λ x y, f x = Some y) (filter P l) (omap f l)) as IH'.
  { apply IH. intros y Hy. apply Hl. by right. }
  destruct (Hl x) as [H1 H2]; [by left|].
  destruct (decide (P x)) as [HP|HP].
  - destruct (H1 HP) as [y Hy]. rewrite Hy. by constructor.
  - destruct (f x) as [y|] eqn:Hy; [|done]. destruct HP. eauto.
Qed.

Lemma sublist_omap_filter {A B} (f : A → option B) (P : A → Prop)
    `{!∀ x, Decision (P x)} l :
  omap f (filter P l) `sublist_of` omap f l.
Proof.
  induction l as [|x l IH]; [done|]. rewrite filter_cons. simpl.
  destruct (decide (P x)); simpl.
  - destruct (f x); [by constructor|done].
  - destruct (f x); [by constructor|done].
Qed.

Lemma omap_constant {A B} (f : A → option B) l y :
  (∀ x, x ∈ l → f x = Some y) → omap f l = replicate (length l) y.
Proof.
  induction l as [|x l IH]; intros Hl; [done|]. simpl.
  rewrite (Hl x) by (by left). f_equal. apply IH. intros; apply Hl. by right.
Qed.

(** The markers of a run that have a row, and the entries, side by side. *)
Lemma kept_markers_entries soup top_n :
  Forall2 (λ m e, entry_of soup (get_header_text soup) m = Some e)
    (filter (λ m, is_Some (row_of soup m)) (slice_to (markers soup) top_n))
    (omap (entry_of soup (get_header_text soup))
          (slice_to (markers soup) top_n)).
Proof.
  apply Forall2_filter_omap. intros m Hm%elem_of_slice_to. split.
  - intros [r Hr]. by eapply entry_of_marker.
  - intros [e (r & _ & Hr & _)%entry_of_inv]. eauto.
Qed.

End ExtractFacts.

(** ** Facts about paths and the file system *)

Module PathFacts.
Import PosixPath.

Lemma is_empty_false s : PyStr.is_empty s = false ↔ s ≠ "".
Proof. by destruct s. Qed.

Lemma is_empty_true s : PyStr.is_empty s = true ↔ s = "".
Proof. by destruct s. Qed.

Lemma append_cons c (a b : string) : String c a +:+ b = String c (a +:+ b).
Proof. done. Qed.

Lemma append_assoc (a b c : string) : (a +:+ b) +:+ c = a +:+ b +:+ c.
Proof. induction a as [|x a IH]; [done|]. by rewrite !append_cons, IH. Qed.

Lemma append_nonempty_r (a b : string) : b ≠ "" → a +:+ b ≠ "".
Proof. intros Hb. destruct a; [done|]. by rewrite append_cons. Qed.

Lemma has_slash_append a b : has_slash (a +:+ b) = has_slash a || has_slash b.
Proof.
  induction a as [|x a IH]; [done|]. rewrite append_cons. simpl.
  by rewrite IH, orb_assoc.
Qed.

Lemma rsplit_no_slash p : has_slash p = false → rsplit p = ("", p).
Proof.
  induction p as [|c r IH]; [done|]. simpl.
  intros [Hc Hr]%orb_false_iff. by rewrite (IH Hr), Hc.
Qed.

Lemma rsplit_head_nonempty p :
  has_slash p = true → PyStr.is_empty (rsplit p).1 = false.
Proof.
  induction p as [|c r IH]; [done|]. simpl. destruct (rsplit r) as [h t].
  destruct (Ascii.eqb c "/"); simpl; [done|]. intros Hr. simpl in IH.
  by rewrite (IH Hr).
Qed.

Lemma rstrip_slashes_nonempty h :
  all_slashes h = false → rstrip_slashes h ≠ "".
Proof.
  induction h as [|c r IH]; [done|]. simpl.
  destruct (Ascii.eqb c "/"); simpl.
  - intros Hr%IH. apply is_empty_false in Hr. by rewrite Hr.
  - by rewrite andb_false_r.
Qed.

(** A path has no directory component exactly when it has no slash. *)
Lemma dirname_empty_iff p : dirname p = "" ↔ has_slash p = false.
Proof.
  split.
  - intros Hd. destruct (has_slash p) eqn:Hs; [|done].
    apply rsplit_head_nonempty in Hs. unfold dirname in Hd. rewrite Hs in Hd.
    simpl in Hd. destruct (all_slashes (rsplit p).1) eqn:Ha; simpl in Hd.
    + apply is_empty_true in Hd. congruence.
    + by apply rstrip_slashes_nonempty in Ha.
  - intros Hs. unfold dirname. by rewrite (rsplit_no_slash _ Hs).
Qed.

Lemma rsplit_append_no_slash a b :
  has_slash b = false → rsplit (a +:+ b) = ((rsplit a).1, (rsplit a).2 +:+ b).
Proof.
  intros Hb. induction a as [|c a IH]; [by rewrite rsplit_no_slash|].
  rewrite append_cons. simpl. rewrite IH. destruct (rsplit a) as [h t]. simpl.
  by destruct (Ascii.eqb c "/" || negb (PyStr.is_empty h)).
Qed.

Lemma basename_append_no_slash a b :
  has_slash b = false → b ≠ "" → basename (a +:+ b) ≠ "".
Proof.
  intros Hb Hne. unfold basename. rewrite rsplit_append_no_slash by done.
  by apply append_nonempty_r.
Qed.

(** The artifact paths of the handler name a file in a directory. *)
Lemma output_html_of_path item_id :
  dirname (output_html_of item_id) ≠ ""
  ∧ basename (output_html_of item_id) ≠ "".
Proof.
  unfold output_html_of. split.
  - rewrite dirname_empty_iff, has_slash_append. done.
  - rewrite <- append_assoc. by apply basename_append_no_slash.
Qed.

Lemma rankings_csv_of_path item_id :
  dirname (rankings_csv_of item_id) ≠ ""
  ∧ basename (rankings_csv_of item_id) ≠ "".
Proof.
  unfold rankings_csv_of. split.
  - rewrite dirname_empty_iff, has_slash_append. done.
  - rewrite <- append_assoc. by apply basename_append_no_slash.
Qed.

Lemma elem_of_lineage name : name ≠ "" → name ∈ lineage_of name.
Proof. destruct name; [done|]. intros _. unfold lineage_of. simpl. by left. Qed.

Lemma makedirs_empty env w :
  makedirs env "" w = (Raise (FileNotFoundError ""), w).
Proof. done. Qed.

Lemma not_taken_lineage w name n :
  forallb (λ n, negb (taken_by_file w n)) (lineage_of name) = true →
  n ∈ lineage_of name → taken_by_file w n = false.
Proof.
  intros Hall Hn. rewrite forallb_forall in Hall.
  apply list_elem_of_In, Hall in Hn. by apply negb_true_iff.
Qed.

Lemma below_a_file_None w name :
  forallb (λ n, negb (taken_by_file w n)) (lineage_of name) = true →
  below_a_file w name = None.
Proof.
  intros Hall. unfold below_a_file.
  destruct (filter _ _) as [|[c pa] l] eqn:Hf; [done|].
  assert ((c, pa) ∈ filter (λ cp, taken_by_file w cp.2)
            (zip (lineage_of name) (tail (lineage_of name)))) as Hin
    by (rewrite Hf; by left).
  apply list_elem_of_filter in Hin as [Htaken Hin%elem_of_zip_r].
  simpl in *.
  assert (pa ∈ lineage_of name) as Hpa
    by (destruct (lineage_of name); [done|by right]).
  rewrite (not_taken_lineage _ _ _ Hall Hpa) in Htaken. done.
Qed.

(** Directory creation succeeds whether or not the directory exists, when
    the system accepts it. *)
Lemma makedirs_accepted env name w :
  name ≠ "" → directory_accepted env name w = true →
  makedirs env name w = (Ok (), made name w) ∧ name ∈ dirs (made name w).
Proof.
  intros Hn Hacc. unfold makedirs, directory_accepted in *.
  rewrite (proj2 (is_empty_false _) Hn).
  destruct (os_refuses env (SysMkdir name) w); [done|].
  rewrite (not_taken_lineage _ _ _ Hacc (elem_of_lineage _ Hn)).
  rewrite (below_a_file_None _ _ Hacc). split; [done|]. simpl.
  by apply elem_of_union_l, elem_of_list_to_set, elem_of_lineage.
Qed.

(** What a successful directory step leaves. *)
Lemma makedirs_Ok_inv env name w u w1 :
  makedirs env name w = (Ok u, w1) →
  w1 = made name w ∧ name ≠ "" ∧ name ∈ dirs w1.
Proof.
  unfold makedirs. destruct (PyStr.is_empty name) eqn:Hn; [done|].
  apply is_empty_false in Hn. repeat case_match; try done.
  intros [= _ <-]. split; [done|]. split; [done|]. simpl.
  by apply elem_of_union_l, elem_of_list_to_set, elem_of_lineage.
Qed.

Lemma write_file_ok env path data w :
  file_accepted env path w = true →
  (dirname path = "" ∨ dirname path ∈ dirs w) →
  write_file env path data w = (Ok (), written path data w).
Proof.
  unfold file_accepted, write_file. intros Hacc Hd.
  destruct (os_refuses env (SysOpen path) w); [done|].
  apply andb_true_iff in Hacc as [Hb%negb_true_iff Hp%negb_true_iff].
  assert (PyStr.is_empty path = false) as ->.
  { destruct path; [done|done]. }
  rewrite Hb, Hp. simpl.
  destruct Hd as [->|Hd]; [done|].
  by rewrite (bool_decide_eq_true_2 _ Hd), andb_false_r.
Qed.

(** What a successful write leaves. *)
Lemma write_file_Ok_inv env path data w u w2 :
  write_file env path data w = (Ok u, w2) → w2 = written path data w.
Proof.
  unfold write_file. repeat case_match; try done. by intros [= _ <-].
Qed.

End PathFacts.

(** ** Facts about the pipeline *)

Module PipelineFacts.
Import PosixPath PathFacts ExtractFacts.

Lemma logged_logged w a b : logged (logged w a) b = logged w (a ++ b).
Proof. unfold logged. simpl. by rewrite app_assoc. Qed.

Lemma save_html_bare env soup path w :
  has_slash path = false →
  save_html env soup path w = (Raise (FileNotFoundError ""), w).
Proof.
  intros Hd%dirname_empty_iff. unfold save_html, bind. by rewrite Hd.
Qed.

Lemma save_to_csv_bare env data path w :
  has_slash path = false →
  save_to_csv env data path w = (Raise (FileNotFoundError ""), w).
Proof.
  intros Hd%dirname_empty_iff. unfold save_to_csv, bind. by rewrite Hd.
Qed.

(** After the directory step, [save_html] goes on with the write. *)
Lemma save_html_proceeds env soup path w u w1 :
  makedirs env (dirname path) w = (Ok u, w1) →
  save_html env soup path w
  = (do! write_file env path (soup_str env soup) in
     print ("HTMLが '" +:+ path +:+ "' に保存されました。")) w1.
Proof. intros Hmk. unfold save_html. unfold bind at 1. by rewrite Hmk. Qed.

Lemma save_to_csv_proceeds env data rows path w u w1 :
  makedirs env (dirname path) w = (Ok u, w1) →
  rows_of_data data = Some rows →
  save_to_csv env data path w
  = (do! write_file env path (to_csv env rows) in
     print ("データが '" +:+ path +:+ "' に保存されました。")) w1.
Proof.
  intros Hmk Hrows. unfold save_to_csv. unfold bind at 1. rewrite Hmk.
  by destruct data; simplify_eq/=.
Qed.

(** The saves succeed when the system accepts the directory and the file. *)
Lemma save_html_ok env soup path w :
  dirname path ≠ "" →
  directory_accepted env (dirname path) w = true →
  file_accepted env path (made (dirname path) w) = true →
  save_html env soup path w
  = (Ok (), html_stored path (soup_str env soup) w).
Proof.
  intros Hd Hacc Hfile. destruct (makedirs_accepted _ _ w Hd Hacc) as [Hmk Hin].
  rewrite (save_html_proceeds _ _ _ _ _ _ Hmk). unfold bind.
  rewrite write_file_ok; [done|done|by right].
Qed.

Lemma save_to_csv_ok env rows path w :
  dirname path ≠ "" →
  directory_accepted env (dirname path) w = true →
  file_accepted env path (made (dirname path) w) = true →
  save_to_csv env (PyList rows) path w
  = (Ok (), csv_stored path (to_csv env rows) w).
Proof.
  intros Hd Hacc Hfile. destruct (makedirs_accepted _ _ w Hd Hacc) as [Hmk Hin].
  rewrite (save_to_csv_proceeds _ _ rows _ _ _ _ Hmk) by done. unfold bind.
  rewrite write_file_ok; [done|done|by right].
Qed.

(** What a successful save leaves. *)
Lemma save_html_Ok_inv env soup path w u w2 :
  save_html env soup path w = (Ok u, w2) →
  w2 = html_stored path (soup_str env soup) w.
Proof.
  unfold save_html. unfold bind at 1.
  destruct (makedirs env (dirname path) w) as [[[]|e] w1] eqn:Hmk; [|done].
  apply makedirs_Ok_inv in Hmk as (-> & _ & _). unfold bind.
  destruct (write_file _ _ _ _) as [[[]|e] w1] eqn:Hwr; [|done].
  apply write_file_Ok_inv in Hwr as ->. by intros [= _ <-].
Qed.

Lemma save_to_csv_Ok_inv env rows path w u w2 :
  save_to_csv env (PyList rows) path w = (Ok u, w2) →
  w2 = csv_stored path (to_csv env rows) w.
Proof.
  unfold save_to_csv. unfold bind at 1.
  destruct (makedirs env (dirname path) w) as [[[]|e] w1] eqn:Hmk; [|done].
  apply makedirs_Ok_inv in Hmk as (-> & _ & _). unfold bind, ret.
  destruct (write_file _ _ _ _) as [[[]|e] w1] eqn:Hwr; [|done].
  apply write_file_Ok_inv in Hwr as ->. by intros [= _ <-].
Qed.

(** A failed fetch: [fetch_html] prints and returns [None]. *)
Lemma fetch_html_fails env url w :
  fetch_fails env url →
  ∃ lines, fetch_html env url headers w
           = (Ok None, logged w (EvPrint <$> lines)).
Proof.
  unfold fetch_fails, fetch_html, try_except, bind.
  destruct (requests_get env url headers) as [response|e]; simpl.
  - intros [Hlo Hhi]. unfold raise_for_status.
    rewrite (proj2 (Z.leb_le _ _) Hlo), (proj2 (Z.ltb_lt _ _) Hhi). simpl.
    eexists [_; _]. unfold logged. simpl. by rewrite <- app_assoc.
  - intros ->. by eexists [_].
Qed.

(** A fetch that succeeds: the page the parser reads from the body. *)
Lemma fetch_html_ok env url w response :
  requests_get env url headers = Ok response →
  ¬ (400 ≤ status_code response < 600)%Z →
  fetch_html env url headers w
  = (Ok (Some (html_parser env
                 (text response (apparent_encoding response)))),
     logged w [EvPrint ("Detected encoding: "
                        +:+ apparent_encoding response)]).
Proof.
  intros Hget Hstatus. unfold fetch_html, try_except, bind. rewrite Hget.
  simpl. unfold raise_for_status.
  destruct (400 <=? status_code response)%Z eqn:Hlo; [|done].
  destruct (status_code response <? 600)%Z eqn:Hhi; [|done].
  apply Z.leb_le in Hlo. apply Z.ltb_lt in Hhi. lia.
Qed.

Lemma scrape_urls_fetch_failed env url html csv w w1 :
  fetch_html env url headers w = (Ok None, w1) →
  scrape_urls env url html csv w = (Ok None, w1).
Proof. intros Hf. unfold scrape_urls, bind. by rewrite Hf. Qed.

(** The run after a fetch that succeeded and a [save_html] that stored the
    page: the rows are stored when there are some. *)
Lemma scrape_urls_fetched env url html csv w soup w1 w2 :
  fetch_html env url headers w = (Ok (Some soup), w1) →
  save_html env soup html w1 = (Ok (), w2) →
  w2 = html_stored html (soup_str env soup) w1
  ∧ scrape_urls env url html csv w
    = match omap (entry_of soup (get_header_text soup))
                 (slice_to (markers soup) 20) with
      | [] =>
          (Ok None,
           logged w2
                  (extract_log soup
                   ++ [EvPrint "ランキング情報が存在しませんでした。"]))
      | (_ :: _) as rankings =>
          (do! save_to_csv env (PyList rankings) csv in ret None)
            (logged w2 (extract_log soup))
      end.
Proof.
  intros Hf Hsave. split; [by eapply save_html_Ok_inv|].
  unfold scrape_urls. unfold bind at 1. rewrite Hf.
  unfold bind at 1. rewrite Hsave.
  unfold bind at 1. rewrite extract_rankings_run.
  destruct (omap _ _); [|done].
  rewrite <- logged_logged. done.
Qed.

(** Whatever happens, [scrape_urls] hands no rankings to its caller. *)
Lemma scrape_urls_returns_None env url html csv w :
  match (scrape_urls env url html csv w).1 with
  | Ok v => v = None
  | Raise _ => True
  end.
Proof.
  unfold scrape_urls, bind.
  destruct (fetch_html env url headers w) as [[[soup|]|e] w1]; simpl; try done.
  destruct (save_html env soup html w1) as [[[]|e] w2]; simpl; [|done].
  destruct (extract_rankings soup 20 w2) as [[[|e1 es]|e] w3]; simpl; try done.
  by destruct (save_to_csv env (PyList (e1 :: es)) csv w3) as [[[]|e] w4].
Qed.

End PipelineFacts.

(** ** The claims about extraction *)

Module Claims.
Import Soup SoupFacts ExtractFacts.

(** The entries of a run stand side by side with the markers the loop
    visits that have a row, each entry with the fields read in the row of
    its marker. *)
Lemma entries_of_rows soup top_n w :
  ∃ es, (extract_rankings soup top_n w).1 = Ok es
    ∧ Forall2 (λ m e, entry_of soup (get_header_text soup) m = Some e)
        (filter (λ m, is_Some (row_of soup m)) (slice_to (markers soup) top_n))
        es.
Proof.
  rewrite extract_rankings_run. eexists. split; [done|].
  apply kept_markers_entries.
Qed.

(** C2: the run returns one entry for each visited marker that has a row,
    in their order, and the Price of the entry of a marker is the one of
    the row of that marker: the trimmed text of the primary price tag of
    the row followed by that of its sub-price tag when the row has both,
    and the sentinel "no price info" when either is absent (the primary
    price alone included). *)
Theorem price_both_or_sentinel soup top_n w :
  ∃ es, (extract_rankings soup top_n w).1 = Ok es
    ∧ Forall2 (λ m e, ∃ row, row_of soup m = Some row
                        ∧ price_rule soup row (Price e))
        (filter (λ m, is_Some (row_of soup m)) (slice_to (markers soup) top_n))
        es.
Proof.
  destruct (entries_of_rows soup top_n w) as (es & Hrun & Hes).
  exists es. split; [done|]. eapply Forall2_impl; [exact Hes|].
  intros m e He. simpl in He.
  apply entry_of_inv in He as (r & t & Hr & _ & _ & _ & Hp & _).
  exists r. split; [done|]. unfold price_rule. rewrite Hp.
  by destruct (find soup r "p" (Some "p-PTPrice_price")),
              (find soup r "p" (Some "p-PTPrice_sub")).
Qed.

(** The rule at work: both tags give the joined text, the primary price
    alone gives the sentinel. *)
Example price_examples :
  (Price <$> entry_of Pages.scenario_A "" [1; 0; 0; 0])
  = Some "¥1,000(tax incl.)"
  ∧ (Price <$> entry_of Pages.price_only "" [0; 0; 0; 0])
    = Some Sentinel.no_price_info.
Proof. split; reflexivity. Qed.

(** C8: [get_header_text] is the trimmed text of the [h1] its lookup finds
    and the sentinel when it finds none.  The run returns one entry for
    each visited marker that has a row, in their order, and in the entry of
    a marker Header is that header text, Shipping, Stock, Shop Name and
    Shop Area are the trimmed text of the element their lookup finds in the
    row of that marker and their own sentinel when it finds none, and Shop
    URL is the href of the shop link of that row, and its sentinel when
    there is no link or the link has no href. *)
Theorem lookup_or_sentinel soup top_n w :
  get_header_text soup
  = or_sentinel soup (find soup [] "h1" None) Sentinel.no_header_info
  ∧ ∃ es, (extract_rankings soup top_n w).1 = Ok es
    ∧ Forall2 (λ m e, ∃ row, row_of soup m = Some row
        ∧ Header e = get_header_text soup
        ∧ Shipping e =
            or_sentinel soup (find soup row "button" (Some "p-PTShipping_btn"))
                        Sentinel.no_shipping_info
        ∧ Stock e = or_sentinel soup (find soup row "p" (Some "p-PTStock"))
                                Sentinel.no_stock_info
        ∧ Shop_Name e =
            or_sentinel soup
              (find soup row "a" (Some "p-PTShopData_name_link"))
              Sentinel.no_shop_name
        ∧ url_rule soup row (Shop_URL e)
        ∧ Shop_Area e =
            or_sentinel soup
              (find soup row "span" (Some "p-PTShopData_name_area"))
              Sentinel.no_area_info)
        (filter (λ m, is_Some (row_of soup m)) (slice_to (markers soup) top_n))
        es.
Proof.
  split; [done|].
  destruct (entries_of_rows soup top_n w) as (es & Hrun & Hes).
  exists es. split; [done|]. eapply Forall2_impl; [exact Hes|].
  intros m e He. simpl in He.
  apply entry_of_inv in He
    as (r & t & Hr & _ & Hh & _ & _ & Hship & Hstock & Hname & Hurl & Harea).
  exists r. repeat split; try done.
  unfold url_rule. rewrite Hurl.
  destruct (find soup r "a" (Some "p-PTShopData_name_link")) as [a|];
    simpl; [|done].
  by destruct (get_attr soup a "href").
Qed.

(** Scenarios A and B of the specification. *)
Example scenario_A_entry :
  (extract_rankings Pages.scenario_A 20 Pages.empty_world).1
  = Ok [ {| Header := "Widget X"; Rank := "1";
            Price := "¥1,000(tax incl.)"; Shipping := "Free";
            Stock := "In stock"; Shop_Name := "Shop A";
            Shop_URL := "https://shopa.example"; Shop_Area := "Tokyo" |} ].
Proof. reflexivity. Qed.

Example scenario_B_entry :
  (extract_rankings Pages.scenario_B 20 Pages.empty_world).1
  = Ok [ {| Header := "Widget X"; Rank := "1";
            Price := "¥1,000(tax incl.)"; Shipping := "Free";
            Stock := "In stock"; Shop_Name := "Shop A";
            Shop_URL := Sentinel.no_URL; Shop_Area := "Tokyo" |} ].
Proof. reflexivity. Qed.

(** C7: a marker without an enclosing row contributes no entry.  The loop
    body leaves the list as it is, and the run returns the entries of the
    markers before it followed by those of the markers after it. *)
Theorem marker_without_row_skipped soup top_n w before m after :
  slice_to (markers soup) top_n = before ++ m :: after →
  row_of soup m = None →
  (extract_rankings soup top_n w).1
  = Ok (omap (entry_of soup (get_header_text soup)) (before ++ after))
  ∧ ∀ acc w', extract_row soup (get_header_text soup) acc m w' = (Ok acc, w').
Proof.
  intros Hslice Hrow. split.
  - rewrite extract_rankings_run, Hslice. simpl. f_equal.
    rewrite !omap_app. simpl. by rewrite entry_of_no_row.
  - intros acc w'. unfold extract_row. unfold row_of in Hrow. by rewrite Hrow.
Qed.

Lemma marker_without_row_skipped_witness :
  (extract_rankings Pages.orphan_then_row 20 Pages.empty_world).1
  = Ok (omap (entry_of Pages.orphan_then_row
                (get_header_text Pages.orphan_then_row)) ([] ++ [[1; 0; 0; 0]]))
  ∧ ∀ acc w',
      extract_row Pages.orphan_then_row
        (get_header_text Pages.orphan_then_row) acc [0; 0] w' = (Ok acc, w').
Proof.
  apply (marker_without_row_skipped Pages.orphan_then_row 20 Pages.empty_world
           [] [0; 0] [[1; 0; 0; 0]]); reflexivity.
Defined.

(** C3, as the specification states it, fails on a page whose only marker
    has no enclosing row: K = 1 and N = 20, and the run returns no entry. *)
Lemma orphan_marker_not_min :
  1 ≤ length (markers Pages.orphan_marker)
  ∧ ¬ returns_min_K_N Pages.orphan_marker 20 Pages.empty_world.
Proof.
  split; [vm_compute; lia|]. intros (es & Hrun & Hlen).
  vm_compute in Hrun. injection Hrun as <-. vm_compute in Hlen. done.
Qed.

(** C3, amended: for a page with K markers and [topN = N >= 0], the run
    returns one entry for each of the first [min(K, N)] markers that has an
    enclosing row, in the order of those markers, which is their order in
    the document; these are exactly [min(K, N)] entries when each of those
    markers has a row. *)
Theorem entries_follow_markers soup top_n w :
  (0 ≤ top_n)%Z →
  ∃ es, (extract_rankings soup top_n w).1 = Ok es
    ∧ Forall2 (λ m e, entry_of soup (get_header_text soup) m = Some e)
        (filter (λ m, is_Some (row_of soup m))
                (take (Z.to_nat top_n) (markers soup)))
        es
    ∧ StronglySorted ref_lt (markers soup)
    ∧ ((∀ m, m ∈ take (Z.to_nat top_n) (markers soup)
             → is_Some (row_of soup m))
       → Z.of_nat (length es)
         = Z.min (Z.of_nat (length (markers soup))) top_n).
Proof.
  intros HN. rewrite extract_rankings_run. eexists. split; [done|].
  pose proof (kept_markers_entries soup top_n) as Hkept.
  assert (slice_to (markers soup) top_n
          = take (Z.to_nat top_n) (markers soup)) as Hslice.
  { unfold slice_to. by rewrite (proj2 (Z.leb_le 0 top_n) HN). }
  rewrite Hslice in *. split; [done|]. split; [apply find_all_sorted|].
  intros Hrows. apply Forall2_length in Hkept. rewrite <- Hkept.
  assert (filter (λ m, is_Some (row_of soup m))
                 (take (Z.to_nat top_n) (markers soup))
          = take (Z.to_nat top_n) (markers soup)) as ->.
  { clear Hkept Hslice. induction (take _ _) as [|m l IH]; [done|].
    rewrite filter_cons. destruct (decide _) as [|Hn].
    - f_equal. apply IH. intros; apply Hrows. by right.
    - destruct Hn. apply Hrows. by left. }
  rewrite length_take. lia.
Qed.

Lemma entries_follow_markers_witness :
  ∃ es, (extract_rankings Pages.twin_markers 1 Pages.empty_world).1 = Ok es
    ∧ Forall2 (λ m e, entry_of Pages.twin_markers
                        (get_header_text Pages.twin_markers) m = Some e)
        (filter (λ m, is_Some (row_of Pages.twin_markers m))
                (take (Z.to_nat 1) (markers Pages.twin_markers)))
        es
    ∧ StronglySorted ref_lt (markers Pages.twin_markers)
    ∧ ((∀ m, m ∈ take (Z.to_nat 1) (markers Pages.twin_markers)
             → is_Some (row_of Pages.twin_markers m))
       → Z.of_nat (length es)
         = Z.min (Z.of_nat (length (markers Pages.twin_markers))) 1).
Proof.
  apply (entries_follow_markers Pages.twin_markers 1 Pages.empty_world). lia.
Defined.

(** With two markers in rows and [topN = 1], one entry comes back. *)
Example truncated_to_top_n :
  (extract_rankings Pages.twin_markers 1 Pages.empty_world).1
  = Ok [ {| Header := Sentinel.no_header_info; Rank := "1";
            Price := Sentinel.no_price_info;
            Shipping := Sentinel.no_shipping_info;
            Stock := Sentinel.no_stock_info;
            Shop_Name := Sentinel.no_shop_name;
            Shop_URL := Sentinel.no_URL;
            Shop_Area := Sentinel.no_area_info |} ].
Proof. reflexivity. Qed.

(** C9: when [row] is the enclosing row of M >= 2 of the markers the loop
    visits, each of them gets an entry of its own, all M entries are the one
    entry [e_row] of that row, and its Rank is the trimmed text of [first],
    the marker inside the row that comes before the others in the
    document. *)
Theorem shared_row_repeats_first_rank soup top_n w row :
  2 ≤ length (filter (λ m, row_of soup m = Some row)
                     (slice_to (markers soup) top_n)) →
  ∃ es first e_row,
    (extract_rankings soup top_n w).1 = Ok es
    ∧ find soup row "span" (Some "p-PTRank") = Some first
    ∧ Forall (λ m, first = m ∨ ref_lt first m)
        (filter (λ m, row_of soup m = Some row)
                (slice_to (markers soup) top_n))
    ∧ Rank e_row = get_text soup first
    ∧ Forall2 (λ m e, entry_of soup (get_header_text soup) m = Some e
                       ∧ (row_of soup m = Some row → e = e_row))
        (filter (λ m, is_Some (row_of soup m)) (slice_to (markers soup) top_n))
        es
    ∧ replicate
        (length (filter (λ m, row_of soup m = Some row)
                        (slice_to (markers soup) top_n)))
        e_row `sublist_of` es.
Proof.
  intros HM. rewrite extract_rankings_run. simpl.
  set (h := get_header_text soup). set (sl := slice_to (markers soup) top_n).
  fold sl in HM.
  destruct (filter (λ m, row_of soup m = Some row) sl) as [|m0 ms] eqn:Hms;
    [simpl in HM; lia|].
  assert (m0 ∈ filter (λ m, row_of soup m = Some row) sl) as Hm0
    by (rewrite Hms; by left).
  apply list_elem_of_filter in Hm0 as [Hrow0 Hin0].
  destruct (entry_of_marker soup h m0 row) as [e0 He0];
    [by eapply elem_of_slice_to|done|].
  pose proof He0 as (r & first & Hr & Hfirst & _ & Hrank & _)%entry_of_inv.
  assert (r = row) as -> by congruence.
  assert (∀ m, row_of soup m = Some row → entry_of soup h m = Some e0) as Hsame.
  { intros m Hm. rewrite <- He0. apply entry_of_same_row. congruence. }
  exists (omap (entry_of soup h) sl), first, e0. repeat split; try done.
  - rewrite <- Hms. apply Forall_forall.
    intros m [Hm Hin%elem_of_slice_to]%list_elem_of_filter.
    apply find_parent_Some in Hm as [(q & -> & Hq) _].
    eapply find_first; [done|]. by apply find_all_below.
  - eapply Forall2_impl; [apply kept_markers_entries|]. simpl.
    intros m e He. split; [done|]. intros Hm%Hsame. fold h in He. congruence.
  - rewrite <- Hms.
    erewrite <- (omap_constant (entry_of soup h)); [apply sublist_omap_filter|].
    by intros m [Hm _]%list_elem_of_filter; apply Hsame.
Qed.

Lemma shared_row_repeats_first_rank_witness :
  ∃ es first e_row,
    (extract_rankings Pages.twin_markers 20 Pages.empty_world).1 = Ok es
    ∧ find Pages.twin_markers [0; 0] "span" (Some "p-PTRank") = Some first
    ∧ Forall (λ m, first = m ∨ ref_lt first m)
        (filter (λ m, row_of Pages.twin_markers m = Some [0; 0])
                (slice_to (markers Pages.twin_markers) 20))
    ∧ Rank e_row = get_text Pages.twin_markers first
    ∧ Forall2 (λ m e, entry_of Pages.twin_markers
                        (get_header_text Pages.twin_markers) m = Some e
                       ∧ (row_of Pages.twin_markers m = Some [0; 0]
                          → e = e_row))
        (filter (λ m, is_Some (row_of Pages.twin_markers m))
                (slice_to (markers Pages.twin_markers) 20))
        es
    ∧ replicate
        (length (filter (λ m, row_of Pages.twin_markers m = Some [0; 0])
                        (slice_to (markers Pages.twin_markers) 20)))
        e_row `sublist_of` es.
Proof.
  apply (shared_row_repeats_first_rank Pages.twin_markers 20
           Pages.empty_world [0; 0]).
  vm_compute. lia.
Defined.

(** The two markers "1" and "2" of one row both come back with Rank "1". *)
Example twin_markers_ranks :
  ∃ es, (extract_rankings Pages.twin_markers 20 Pages.empty_world).1 = Ok es
    ∧ Rank <$> es = ["1"; "1"].
Proof. eexists. split; reflexivity. Qed.

(** C4, as the specification states it, fails on a page whose heading has
    no text: the Header of the entry is the empty string. *)
Lemma empty_heading_empty_header :
  ¬ ∃ es, (extract_rankings Pages.empty_heading 20 Pages.empty_world).1 = Ok es
      ∧ Forall all_fields_nonempty es.
Proof.
  intros (es & Hrun & Hes). vm_compute in Hrun. injection Hrun as <-.
  apply Forall_cons in Hes as [(Hheader & _) _]. by apply Hheader.
Qed.

Lemma sentinels_nonempty :
  Sentinel.no_header_info ≠ "" ∧ Sentinel.no_price_info ≠ ""
  ∧ Sentinel.no_shipping_info ≠ "" ∧ Sentinel.no_stock_info ≠ ""
  ∧ Sentinel.no_shop_name ≠ "" ∧ Sentinel.no_URL ≠ ""
  ∧ Sentinel.no_area_info ≠ "".
Proof. repeat split; discriminate. Qed.

Lemma or_sentinel_empty soup tag sentinel :
  sentinel ≠ "" → empty_only_from soup tag (or_sentinel soup tag sentinel).
Proof.
  intros Hs Hv. destruct tag as [t|]; simpl in Hv; [eauto|done].
Qed.

Lemma append_empty (a b : string) : a +:+ b = "" → a = "" ∧ b = "".
Proof. destruct a; [done|discriminate]. Qed.

Lemma resolves_or_sentinel soup tag sentinel :
  sentinel ≠ "" → resolves_to soup tag sentinel (or_sentinel soup tag sentinel).
Proof. intros Hs. split; [done|]. split; [done|]. by apply or_sentinel_empty. Qed.

(** C4, amended: the run returns one entry for each visited marker that
    has a row, in their order, with all eight fields; in the entry of a
    marker every field holds what its lookup gives in the row of that
    marker: the sentinel of the field, which is not empty, when the lookup
    finds nothing, and otherwise the trimmed text of the element found (for
    Rank, the first marker of the row; for Price, the texts of both price
    tags; for Shop URL, the href); so a field is empty only when it is read
    from an element whose trimmed text is empty (for Price, both; for Shop
    URL, an empty href). *)
Theorem fields_empty_only_from_empty_text soup top_n w :
  ∃ es, (extract_rankings soup top_n w).1 = Ok es
    ∧ Forall2 (λ m e, ∃ row, row_of soup m = Some row
        ∧ resolves_to soup (find soup [] "h1" None)
                      Sentinel.no_header_info (Header e)
        ∧ (∃ first, find soup row "span" (Some "p-PTRank") = Some first
             ∧ Rank e = get_text soup first)
        ∧ price_rule soup row (Price e)
        ∧ Sentinel.no_price_info ≠ ""
        ∧ (Price e = "" →
           ∃ a b, find soup row "p" (Some "p-PTPrice_price") = Some a
             ∧ find soup row "p" (Some "p-PTPrice_sub") = Some b
             ∧ get_text soup a = "" ∧ get_text soup b = "")
        ∧ resolves_to soup
            (find soup row "button" (Some "p-PTShipping_btn"))
            Sentinel.no_shipping_info (Shipping e)
        ∧ resolves_to soup (find soup row "p" (Some "p-PTStock"))
                      Sentinel.no_stock_info (Stock e)
        ∧ resolves_to soup
            (find soup row "a" (Some "p-PTShopData_name_link"))
            Sentinel.no_shop_name (Shop_Name e)
        ∧ url_rule soup row (Shop_URL e)
        ∧ Sentinel.no_URL ≠ ""
        ∧ (Shop_URL e = "" →
           ∃ t, find soup row "a" (Some "p-PTShopData_name_link") = Some t
             ∧ get_attr soup t "href" = Some "")
        ∧ resolves_to soup
            (find soup row "span" (Some "p-PTShopData_name_area"))
            Sentinel.no_area_info (Shop_Area e))
        (filter (λ m, is_Some (row_of soup m)) (slice_to (markers soup) top_n))
        es.
Proof.
  destruct sentinels_nonempty as (Hh & Hp & Hsh & Hst & Hn & Hu & Ha).
  destruct (entries_of_rows soup top_n w) as (es & Hrun & Hes).
  exists es. split; [done|]. eapply Forall2_impl; [exact Hes|].
  intros m e He. simpl in He.
  apply entry_of_inv in He
    as (r & t & Hr & Ht & -> & -> & -> & -> & -> & -> & -> & ->).
  exists r. split; [done|].
  split; [by apply resolves_or_sentinel|].
  split; [by exists t|].
  split.
  { unfold price_rule.
    by destruct (find soup r "p" (Some "p-PTPrice_price")),
                (find soup r "p" (Some "p-PTPrice_sub")). }
  split; [done|].
  split.
  { destruct (find soup r "p" (Some "p-PTPrice_price")) as [a|];
      [|by intros ?%Hp].
    destruct (find soup r "p" (Some "p-PTPrice_sub")) as [b|];
      [|by intros ?%Hp].
    intros [? ?]%append_empty. by exists a, b. }
  split; [by apply resolves_or_sentinel|].
  split; [by apply resolves_or_sentinel|].
  split; [by apply resolves_or_sentinel|].
  split.
  { unfold url_rule.
    destruct (find soup r "a" (Some "p-PTShopData_name_link")) as [a|];
      simpl; [|done].
    by destruct (get_attr soup a "href"). }
  split; [done|].
  split; [|by apply resolves_or_sentinel].
  destruct (find soup r "a" (Some "p-PTShopData_name_link")) as [a|];
    simpl; [|by intros ?%Hu].
  destruct (get_attr soup a "href") as [v|] eqn:Hv; simpl; [|by intros ?%Hu].
  intros ->. by exists a.
Qed.

(** The entry of scenario A has no empty field, and a row that holds only
    its marker gets the sentinels. *)
Example fields_examples :
  (∀ e, entry_of Pages.scenario_A "Widget X" [1; 0; 0; 0] = Some e →
        all_fields_nonempty e)
  ∧ entry_of Pages.twin_markers Sentinel.no_header_info [0; 0; 0; 0]
    = Some {| Header := Sentinel.no_header_info; Rank := "1";
              Price := Sentinel.no_price_info;
              Shipping := Sentinel.no_shipping_info;
              Stock := Sentinel.no_stock_info;
              Shop_Name := Sentinel.no_shop_name;
              Shop_URL := Sentinel.no_URL;
              Shop_Area := Sentinel.no_area_info |}.
Proof.
  split; [|reflexivity]. intros e He. vm_compute in He.
  injection He as <-. by repeat split.
Qed.

End Claims.

(** ** The claims about the pipeline *)

Module PipelineClaims.
Import PosixPath PathFacts ExtractFacts PipelineFacts.

(** C5: when the fetch fails, [scrape_urls] returns at once with [None],
    the value the handler answers with the failure message and status 500;
    no directory is made and no file is written, neither the page nor the
    rows: the run only prints. *)
Theorem fetch_failure_writes_nothing env url html csv w :
  fetch_fails env url →
  ∃ w' lines,
    scrape_urls env url html csv w = (Ok None, w')
    ∧ dirs w' = dirs w
    ∧ files w' = files w
    ∧ events w' = events w ++ (EvPrint <$> lines)
    ∧ (url ≠ "" →
       (scrape_api env (Some url) w).1
       = Ok (JsonError "データの取得に失敗しました。", 500%Z)).
Proof.
  intros Hfail. destruct (fetch_html_fails env url w Hfail) as [lines Hf].
  exists (logged w (EvPrint <$> lines)), lines.
  split; [by apply scrape_urls_fetch_failed|]. repeat split.
  intros Hurl. unfold scrape_api. destruct url as [|c url]; [done|].
  unfold bind. by erewrite scrape_urls_fetch_failed.
Qed.

Lemma fetch_failure_writes_nothing_witness :
  ∃ w' lines,
    scrape_urls (Pages.env_of (Ok (Pages.response 404)) Pages.scenario_A)
      "J0000037910" "data/fetched_J0000037910.html"
      "data/top10_rankings_J0000037910.csv" Pages.empty_world
    = (Ok None, w')
    ∧ dirs w' = dirs Pages.empty_world
    ∧ files w' = files Pages.empty_world
    ∧ events w' = events Pages.empty_world ++ (EvPrint <$> lines)
    ∧ ("J0000037910" ≠ "" →
       (scrape_api (Pages.env_of (Ok (Pages.response 404)) Pages.scenario_A)
          (Some "J0000037910") Pages.empty_world).1
       = Ok (JsonError "データの取得に失敗しました。", 500%Z)).
Proof.
  apply (fetch_failure_writes_nothing
           (Pages.env_of (Ok (Pages.response 404)) Pages.scenario_A)).
  unfold fetch_fails. simpl. lia.
Defined.

(** A request that cannot be sent fails the same way. *)
Example transport_error_fails :
  fetch_fails
    (Pages.env_of (Raise (RequestException "No scheme supplied"))
                  Pages.scenario_A)
    "J0000037910".
Proof. reflexivity. Qed.

(** C10, as the claim states it, fails where a regular file has the name
    of the directory: the path has a directory part, and [os.makedirs]
    raises [FileExistsError], so [save_html] writes nothing. *)
Lemma directory_taken_by_file_refused :
  let env := Pages.env_of (Ok (Pages.response 200)) Pages.scenario_A in
  let w := mkWorld ∅ {["data" := "not a directory"]} [] in
  dirname "data/fetched.html" ≠ ""
  ∧ ¬ directory_step_returns env "data/fetched.html" w
  ∧ save_html env Pages.scenario_A "data/fetched.html" w
    = (Raise (FileExistsError "data"), w).
Proof.
  intros env w. split; [discriminate|]. split; [|reflexivity].
  intros [w1 Hmk]. vm_compute in Hmk. discriminate.
Qed.

(** C10, amended: for a path without a slash both [save_html] and
    [save_to_csv] raise in [os.makedirs] and leave the world as it was; for
    a path whose directory part is not empty, [os.makedirs] succeeds
    whether the directory is there or not, provided the system accepts it
    (no regular file has the name of the directory or of one above it, and
    the system does not refuse for a reason of its own); the directory
    exists afterwards, and both operations go on with the write, which
    stores the data when the system accepts the path as a file. *)
Theorem persistence_directory_step env path w :
  (has_slash path = false → bare_name_refused env path w)
  ∧ (dirname path ≠ "" → directory_accepted env (dirname path) w = true →
     directory_step_succeeds env path w).
Proof.
  split.
  - intros Hbare. split; intros; [by apply save_html_bare|].
    by apply save_to_csv_bare.
  - intros Hd Hacc. destruct (makedirs_accepted _ _ w Hd Hacc) as [Hmk Hin].
    exists (made (dirname path) w). do 3 (split; [done|]).
    split; [intros; by eapply save_html_proceeds|].
    split; [intros; by eapply save_to_csv_proceeds|].
    intros Hfile. split.
    + intros soup. eexists. split; [by apply save_html_ok|].
      simpl. apply lookup_insert_eq.
    + intros rows. eexists. split; [by apply save_to_csv_ok|].
      simpl. apply lookup_insert_eq.
Qed.

(** The two cases at work: a bare file name is refused, and
    "data/fetched.html" passes the directory step both when "data" is
    missing and when it is there. *)
Lemma persistence_directory_step_witness :
  bare_name_refused (Pages.env_of (Ok (Pages.response 200)) Pages.scenario_A)
    "fetched.html" Pages.empty_world
  ∧ directory_step_succeeds
      (Pages.env_of (Ok (Pages.response 200)) Pages.scenario_A)
      "data/fetched.html" Pages.empty_world
  ∧ directory_step_succeeds
      (Pages.env_of (Ok (Pages.response 200)) Pages.scenario_A)
      "data/fetched.html" (mkWorld {["data"]} ∅ []).
Proof.
  split; [|split].
  - apply (proj1 (persistence_directory_step _ "fetched.html" _)).
    reflexivity.
  - apply (proj2 (persistence_directory_step _ "data/fetched.html" _));
      [discriminate|reflexivity].
  - apply (proj2 (persistence_directory_step _ "data/fetched.html" _));
      [discriminate|reflexivity].
Defined.

(** With "data" in place the page is stored, in a world where it was
    missing and in one where it was there. *)
Example page_stored_either_way :
  let env := Pages.env_of (Ok (Pages.response 200)) Pages.scenario_A in
  files (save_html env Pages.scenario_A "data/fetched.html"
           Pages.empty_world).2 !! "data/fetched.html" = Some "<html>"
  ∧ files (save_html env Pages.scenario_A "data/fetched.html"
             (mkWorld {["data"]} ∅ [])).2 !! "data/fetched.html"
    = Some "<html>".
Proof. split; reflexivity. Qed.

(** A path that ends in a slash has a directory part and names no file:
    the write is tried and refused. *)
Example trailing_slash_refused :
  let env := Pages.env_of (Ok (Pages.response 200)) Pages.scenario_A in
  dirname "data/" = "data"
  ∧ (save_html env Pages.scenario_A "data/" Pages.empty_world).1
    = Raise (IsADirectoryError "data/").
Proof. split; reflexivity. Qed.

(** C1: on scenario A the fetch succeeds and the extraction yields one
    entry, yet [scrape_urls] returns [None], the value it returns for a
    failed fetch, and the handler answers with the failure message and
    status 500 instead of the rankings and 200. *)
Theorem rankings_not_returned :
  let env := Pages.env_of (Ok (Pages.response 200)) Pages.scenario_A in
  let url := "https://kakaku.com/item/J0000037910/" in
  (fetch_html env url headers Pages.empty_world).1
  = Ok (Some Pages.scenario_A)
  ∧ (∃ e, (extract_rankings Pages.scenario_A 20 Pages.empty_world).1
          = Ok [e])
  ∧ (scrape_urls env url "data/fetched.html" "data/top10_rankings.csv"
       Pages.empty_world).1 = Ok None
  ∧ (main env Pages.empty_world).1 = Ok None
  ∧ (scrape_api env (Some url) Pages.empty_world).1
    = Ok (JsonError "データの取得に失敗しました。", 500%Z).
Proof. repeat split; [eexists|..]; reflexivity. Qed.

(** After a fetch that succeeded and a [save_html] the system accepted: the
    page is written once, before the extraction; the rows are written when
    there are some and the system accepts that save too, and otherwise
    nothing more is made or written.  The value returned is [None] either
    way. *)
Lemma scrape_urls_persists env url html csv w soup w1 w2 :
  fetch_html env url headers w = (Ok (Some soup), w1) →
  save_html env soup html w1 = (Ok (), w2) →
  match omap (entry_of soup (get_header_text soup))
             (slice_to (markers soup) 20) with
  | [] =>
      ∃ w',
        scrape_urls env url html csv w = (Ok None, w')
        ∧ files w' = <[html := soup_str env soup]> (files w1)
        ∧ events w'
          = events w1
            ++ [EvMakedirs (dirname html);
                EvWrite html (soup_str env soup); html_saved html]
            ++ extract_log soup
            ++ [EvPrint "ランキング情報が存在しませんでした。"]
  | (_ :: _) as rankings =>
      ∀ w3,
        save_to_csv env (PyList rankings) csv (logged w2 (extract_log soup))
        = (Ok (), w3) →
        scrape_urls env url html csv w = (Ok None, w3)
        ∧ files w3
          = <[csv := to_csv env rankings]>
              (<[html := soup_str env soup]> (files w1))
        ∧ events w3
          = events w1
            ++ [EvMakedirs (dirname html);
                EvWrite html (soup_str env soup); html_saved html]
            ++ extract_log soup
            ++ [EvMakedirs (dirname csv);
                EvWrite csv (to_csv env rankings); csv_saved csv]
  end.
Proof.
  intros Hf Hsave.
  destruct (scrape_urls_fetched _ _ _ csv _ _ _ _ Hf Hsave) as [-> ->].
  destruct (omap _ _) as [|e es].
  - eexists. split; [done|]. simpl. split; [done|].
    by rewrite <- !app_assoc.
  - cbv zeta. intros w3 Hcsv. unfold bind. rewrite Hcsv.
    apply save_to_csv_Ok_inv in Hcsv as ->.
    split; [done|]. simpl. split; [done|].
    by rewrite <- !app_assoc.
Qed.

(** C6: on a page without markers the page is stored once and no rows file
    is made, as the claim says; but the run returns [None], the value of a
    failed fetch, and the handler answers with the failure message and
    status 500 instead of the no-rankings message and 404. *)
Theorem empty_result_reported_as_failure :
  let env := Pages.env_of (Ok (Pages.response 200)) Pages.no_markers in
  let url := "https://kakaku.com/item/J0000037910/" in
  ∃ w',
    scrape_urls env url "data/fetched.html" "data/top10_rankings.csv"
      Pages.empty_world = (Ok None, w')
    ∧ files w' = {["data/fetched.html" := "<html>"]}
    ∧ events w'
      = [EvPrint "Detected encoding: utf-8";
         EvMakedirs "data";
         EvWrite "data/fetched.html" "<html>";
         html_saved "data/fetched.html";
         EvPrint "ランキングリストが見つかりませんでした。";
         EvPrint "ランキング情報が存在しませんでした。"]
    ∧ (scrape_api env (Some url) Pages.empty_world).1
      = Ok (JsonError "データの取得に失敗しました。", 500%Z).
Proof.
  intros env url.
  set (w1 := logged Pages.empty_world [EvPrint "Detected encoding: utf-8"]).
  assert (save_html env Pages.no_markers "data/fetched.html" w1
          = (Ok (), html_stored "data/fetched.html"
                      (soup_str env Pages.no_markers) w1)) as Hsave
    by (apply save_html_ok; [discriminate|reflexivity|reflexivity]).
  pose proof (scrape_urls_persists env url "data/fetched.html"
                "data/top10_rankings.csv" Pages.empty_world Pages.no_markers
                w1 _ eq_refl Hsave) as Hrun.
  assert (omap (entry_of Pages.no_markers (get_header_text Pages.no_markers))
               (slice_to (markers Pages.no_markers) 20) = []) as Hnil
    by reflexivity.
  rewrite Hnil in Hrun. destruct Hrun as (w' & Hrun & Hfiles & Hevents).
  exists w'. split; [done|]. split; [by rewrite Hfiles|].
  split; [by rewrite Hevents|]. reflexivity.
Qed.

End PipelineClaims.

(** ** Facts about what a run touches *)

Module FrameFacts.
Import PosixPath PathFacts ExtractFacts PipelineFacts.

Lemma touches_ret {A} ps (a : A) : touches_only ps (ret a).
Proof. intros w. by simpl. Qed.

Lemma touches_raise {A} ps e : touches_only ps (raise (A := A) e).
Proof. intros w. by simpl. Qed.

Lemma touches_bind {A B} ps (c : M A) (k : A → M B) :
  touches_only ps c → (∀ a, touches_only ps (k a)) →
  touches_only ps (bind c k).
Proof.
  intros Hc Hk w. unfold bind. destruct (Hc w) as (Hd & Hf & He).
  destruct (c w) as [[a|e] w1]; simpl in *; [|done].
  destruct (Hk a w1) as (Hd' & Hf' & He').
  split; [by etrans|]. split; [|by etrans].
  intros p Hp. by rewrite Hf', Hf.
Qed.

Lemma touches_weaken {A} ps ps' (c : M A) :
  ps ⊆ ps' → touches_only ps c → touches_only ps' c.
Proof.
  intros Hsub Hc w. destruct (Hc w) as (Hd & Hf & He).
  split; [done|]. split; [|done]. intros p Hp. apply Hf. set_solver.
Qed.

Lemma touches_log ps ev : touches_only ps (log ev).
Proof. intros w. simpl. split; [done|]. split; [done|]. by eexists. Qed.

Lemma touches_makedirs env ps name : touches_only ps (makedirs env name).
Proof.
  intros w. unfold makedirs. repeat case_match; simpl; try done.
  split; [apply union_subseteq_r|]. split; [done|]. by eexists.
Qed.

Lemma touches_write_file env path data :
  touches_only [path] (write_file env path data).
Proof.
  intros w. unfold write_file. repeat case_match; simpl; try done.
  split; [done|]. split; [|by eexists].
  intros p Hp. apply lookup_insert_ne. set_solver.
Qed.

Lemma touches_try_except {A} ps (body : M A) caught handler :
  touches_only ps body → (∀ e, touches_only ps (handler e)) →
  touches_only ps (try_except body caught handler).
Proof.
  intros Hb Hh w. unfold try_except. destruct (Hb w) as (Hd & Hf & He).
  destruct (body w) as [[a|e] w1]; simpl in *; [done|].
  destruct (caught e); simpl; [|done].
  destruct (Hh e w1) as (Hd' & Hf' & He').
  split; [by etrans|]. split; [|by etrans].
  intros p Hp. by rewrite Hf', Hf.
Qed.

Lemma touches_fetch_html env url hs : touches_only [] (fetch_html env url hs).
Proof.
  unfold fetch_html. apply touches_try_except.
  - apply touches_bind; [by intros w|]. intros response.
    apply touches_bind; [apply touches_log|]. intros _.
    apply touches_bind; [|intros; apply touches_ret].
    unfold raise_for_status. case_match; [apply touches_raise|apply touches_ret].
  - intros e. apply touches_bind; [apply touches_log|].
    intros; apply touches_ret.
Qed.

Lemma touches_extract_rankings soup top_n :
  touches_only [] (extract_rankings soup top_n).
Proof.
  intros w. rewrite extract_rankings_run. simpl.
  split; [done|]. split; [done|]. by eexists.
Qed.

Lemma touches_save_html env soup path :
  touches_only [path] (save_html env soup path).
Proof.
  unfold save_html. apply touches_bind; [apply touches_makedirs|]. intros _.
  apply touches_bind; [apply touches_write_file|]. intros _. apply touches_log.
Qed.

Lemma touches_save_to_csv env data path :
  touches_only [path] (save_to_csv env data path).
Proof.
  unfold save_to_csv. apply touches_bind; [apply touches_makedirs|]. intros _.
  apply touches_bind.
  { destruct data; [apply touches_ret..|apply touches_raise]. }
  intros df. apply touches_bind; [apply touches_write_file|]. intros _.
  apply touches_log.
Qed.

Lemma touches_scrape_urls env url html csv :
  touches_only [html; csv] (scrape_urls env url html csv).
Proof.
  unfold scrape_urls. apply touches_bind.
  { eapply touches_weaken; [|apply touches_fetch_html]. by intros x ?%elem_of_nil. }
  intros [soup|]; [|apply touches_ret]. apply touches_bind.
  { eapply touches_weaken; [|apply touches_save_html].
    intros x ->%list_elem_of_singleton. by left. }
  intros _. apply touches_bind.
  { eapply touches_weaken; [|apply touches_extract_rankings].
    by intros x ?%elem_of_nil. }
  intros [|e es].
  - apply touches_bind; [apply touches_log|]. intros; apply touches_ret.
  - apply touches_bind; [|intros; apply touches_ret].
    eapply touches_weaken; [|apply touches_save_to_csv].
    intros x ->%list_elem_of_singleton. right. by left.
Qed.

End FrameFacts.

(** ** More facts about strings and the pipeline *)

Module MoreFacts.
Import PosixPath PathFacts ExtractFacts PipelineFacts.

Lemma append_length (a b : string) :
  String.length (a +:+ b) = String.length a + String.length b.
Proof. induction a as [|x a IH]; [done|]. rewrite append_cons. simpl. lia. Qed.

Lemma append_inj_r (a b c : string) : a +:+ c = b +:+ c → a = b.
Proof.
  intros Heq. assert (String.length a = String.length b) as Hlen.
  { apply (f_equal String.length) in Heq. rewrite !append_length in Heq. lia. }
  revert b Heq Hlen.
  induction a as [|x a IH]; intros [|y b] Heq Hlen; simpl in Hlen; try done.
  rewrite !append_cons in Heq. injection Heq as -> Heq. f_equal.
  apply IH; [done|lia].
Qed.

Lemma omap_length_le {A B} (f : A → option B) l :
  length (omap f l) ≤ length l.
Proof.
  induction l as [|x l IH]; [done|]. csimpl. destruct (f x); csimpl; lia.
Qed.

Lemma artifact_paths_differ a b : output_html_of a ≠ rankings_csv_of b.
Proof. discriminate. Qed.

(** [fetch_html] leaves the directories and the files as they are. *)
Lemma fetch_html_keeps_disk env url hs w :
  dirs (fetch_html env url hs w).2 = dirs w
  ∧ files (fetch_html env url hs w).2 = files w.
Proof.
  unfold fetch_html, try_except, bind, raise_for_status.
  destruct (requests_get env url hs) as [response|e]; simpl.
  - by destruct ((400 <=? status_code response)%Z
                 && (status_code response <? 600)%Z).
  - by destruct (is_RequestException e).
Qed.

End MoreFacts.

(** ** Further properties of the pipeline and the handler *)

Module PipelineExtras.
Import PosixPath PathFacts ExtractFacts PipelineFacts FrameFacts MoreFacts.


(** X2: handed something that is neither a dict nor a list, [save_to_csv]
    always raises and never writes a file; the data is looked at only after
    the directory step: for a bare file name the error is the one of that
    step, and whenever [os.makedirs] succeeds the error is [ValueError],
    with the directory left in place. *)
Theorem unsupported_data_rejected env path w :
  (∃ e, (save_to_csv env PyOther path w).1 = Raise e)
  ∧ files (save_to_csv env PyOther path w).2 = files w
  ∧ (has_slash path = false →
     save_to_csv env PyOther path w = (Raise (FileNotFoundError ""), w))
  ∧ (∀ w1, makedirs env (dirname path) w = (Ok (), w1) →
       ∃ msg, save_to_csv env PyOther path w = (Raise (ValueError msg), w1)
         ∧ dirname path ∈ dirs w1).
Proof.
  assert (∀ w1, makedirs env (dirname path) w = (Ok (), w1) →
            ∃ msg, save_to_csv env PyOther path w
                   = (Raise (ValueError msg), w1)
              ∧ dirname path ∈ dirs w1) as Hafter.
  { intros w1 Hmk. eexists. unfold save_to_csv, bind. rewrite Hmk.
    split; [done|]. by apply makedirs_Ok_inv in Hmk as (_ & _ & ?). }
  destruct (makedirs env (dirname path) w) as [[[]|e] w1] eqn:Hmk.
  - destruct (Hafter w1 eq_refl) as (msg & Hrun & _).
    apply makedirs_Ok_inv in Hmk as (Hw1 & _ & _).
    split; [rewrite Hrun; by eexists|]. split; [by rewrite Hrun, Hw1|].
    split; [by apply save_to_csv_bare|]. intros w1' [= <-]. by apply Hafter.
  - assert (save_to_csv env PyOther path w = (Raise e, w1)) as Hrun
      by (unfold save_to_csv, bind; by rewrite Hmk).
    assert (files w1 = files w) as Hfiles.
    { destruct (touches_makedirs env [] (dirname path) w) as (_ & Hf & _).
      rewrite Hmk in Hf. apply map_eq. intros p. apply Hf, not_elem_of_nil. }
    split; [rewrite Hrun; by eexists|]. split; [by rewrite Hrun|].
    split; [by apply save_to_csv_bare|]. done.
Qed.

Lemma unsupported_data_rejected_witness :
  ∃ msg,
    save_to_csv (Pages.env_of (Ok (Pages.response 200)) Pages.scenario_A)
      PyOther "data/rows.csv" Pages.empty_world
    = (Raise (ValueError msg), made "data" Pages.empty_world)
    ∧ dirname "data/rows.csv" ∈ dirs (made "data" Pages.empty_world).
Proof.
  apply (proj2 (proj2 (proj2
           (unsupported_data_rejected
              (Pages.env_of (Ok (Pages.response 200)) Pages.scenario_A)
              "data/rows.csv" Pages.empty_world)))).
  reflexivity.
Defined.

(** X3: whenever two saves of a page to the same path both succeed, the
    second replaces the first: the file holds the second page, every other
    file is as before the first save, and the second save adds no
    directory. *)
Theorem save_html_overwrites env soup1 soup2 path w w1 w2 :
  save_html env soup1 path w = (Ok (), w1) →
  save_html env soup2 path w1 = (Ok (), w2) →
  files w2 = <[path := soup_str env soup2]> (files w)
  ∧ files w2 !! path = Some (soup_str env soup2)
  ∧ dirs w2 = dirs w1.
Proof.
  intros ->%save_html_Ok_inv ->%save_html_Ok_inv. simpl.
  split; [apply insert_insert_eq|]. split; [apply lookup_insert_eq|].
  by rewrite (assoc_L (∪)), (idemp_L (∪)).
Qed.

Lemma save_html_overwrites_witness :
  let env := Pages.env_of (Ok (Pages.response 200)) Pages.scenario_A in
  let w1 := html_stored "data/fetched.html" (soup_str env Pages.scenario_A)
              Pages.empty_world in
  let w2 := html_stored "data/fetched.html" (soup_str env Pages.scenario_B)
              w1 in
  files w2
  = <["data/fetched.html" := soup_str env Pages.scenario_B]>
      (files Pages.empty_world)
  ∧ files w2 !! "data/fetched.html" = Some (soup_str env Pages.scenario_B)
  ∧ dirs w2 = dirs w1.
Proof.
  intros env w1 w2.
  apply (save_html_overwrites env Pages.scenario_A Pages.scenario_B
           "data/fetched.html" Pages.empty_world w1 w2); reflexivity.
Defined.

(** X4: the page is stored before the rows: when [save_html] has stored
    the page, the extraction yields entries and [rankings_csv] is a bare
    file name, [scrape_urls] raises in the directory step of [save_to_csv],
    and the page stays on disk. *)
Theorem page_kept_when_rows_fail env url html csv w soup w1 w2 :
  fetch_html env url headers w = (Ok (Some soup), w1) →
  save_html env soup html w1 = (Ok (), w2) →
  has_slash csv = false →
  omap (entry_of soup (get_header_text soup)) (slice_to (markers soup) 20)
    ≠ [] →
  ∃ w', scrape_urls env url html csv w = (Raise (FileNotFoundError ""), w')
    ∧ files w' = <[html := soup_str env soup]> (files w1)
    ∧ files w' !! html = Some (soup_str env soup).
Proof.
  intros Hf Hsave Hcsv Hes.
  destruct (scrape_urls_fetched _ _ _ csv _ _ _ _ Hf Hsave) as [-> ->].
  destruct (omap _ _) as [|e es]; [done|].
  unfold bind. rewrite save_to_csv_bare by done. eexists.
  split; [done|]. simpl. split; [done|]. apply lookup_insert_eq.
Qed.

Lemma page_kept_when_rows_fail_witness :
  let env := Pages.env_of (Ok (Pages.response 200)) Pages.scenario_A in
  ∃ w',
    scrape_urls env "https://kakaku.com/item/J0000037910/"
      "data/fetched.html" "rows.csv" Pages.empty_world
    = (Raise (FileNotFoundError ""), w')
    ∧ files w'
      = <["data/fetched.html" := soup_str env Pages.scenario_A]>
          (files (logged Pages.empty_world
                    [EvPrint "Detected encoding: utf-8"]))
    ∧ files w' !! "data/fetched.html" = Some (soup_str env Pages.scenario_A).
Proof.
  intros env.
  apply (page_kept_when_rows_fail env
           "https://kakaku.com/item/J0000037910/" "data/fetched.html"
           "rows.csv" Pages.empty_world Pages.scenario_A
           (logged Pages.empty_world [EvPrint "Detected encoding: utf-8"])
           (html_stored "data/fetched.html" (soup_str env Pages.scenario_A)
              (logged Pages.empty_world
                 [EvPrint "Detected encoding: utf-8"])));
    [reflexivity|reflexivity|reflexivity|].
  vm_compute. discriminate.
Defined.

(** X5: when [output_html] is a bare file name, [scrape_urls] raises in the
    directory step of [save_html], before the extraction: nothing is
    stored, whatever the page holds and whatever [rankings_csv] is. *)
Theorem nothing_stored_for_bare_page_path env url html csv w soup w1 :
  fetch_html env url headers w = (Ok (Some soup), w1) →
  has_slash html = false →
  scrape_urls env url html csv w = (Raise (FileNotFoundError ""), w1)
  ∧ dirs w1 = dirs w ∧ files w1 = files w.
Proof.
  intros Hf Hhtml. split.
  - unfold scrape_urls. unfold bind at 1. rewrite Hf.
    unfold bind. by rewrite save_html_bare.
  - pose proof (fetch_html_keeps_disk env url headers w) as [Hd Hfl].
    rewrite Hf in Hd, Hfl. done.
Qed.

Lemma nothing_stored_for_bare_page_path_witness :
  scrape_urls (Pages.env_of (Ok (Pages.response 200)) Pages.scenario_A)
    "https://kakaku.com/item/J0000037910/" "fetched.html"
    "data/top10_rankings.csv" Pages.empty_world
  = (Raise (FileNotFoundError ""),
     logged Pages.empty_world [EvPrint "Detected encoding: utf-8"])
  ∧ dirs (logged Pages.empty_world [EvPrint "Detected encoding: utf-8"])
    = dirs Pages.empty_world
  ∧ files (logged Pages.empty_world [EvPrint "Detected encoding: utf-8"])
    = files Pages.empty_world.
Proof.
  apply (nothing_stored_for_bare_page_path
           (Pages.env_of (Ok (Pages.response 200)) Pages.scenario_A)
           "https://kakaku.com/item/J0000037910/" "fetched.html"
           "data/top10_rankings.csv" Pages.empty_world Pages.scenario_A);
    reflexivity.
Defined.

(** X6: the handler never answers with rankings or with the no-rankings
    message: without an identifier it answers 400 and leaves the world as it
    is, and with one every answer it gives is the failure message with
    status 500, whatever the fetch and the extraction did. *)
Theorem handler_answers_400_or_500 env item_id w :
  match item_id with
  | None | Some EmptyString =>
      scrape_api env item_id w
      = (Ok (JsonError "itemId パラメータが必要です。", 400%Z), w)
  | Some _ =>
      match (scrape_api env item_id w).1 with
      | Ok answer => answer = (JsonError "データの取得に失敗しました。", 500%Z)
      | Raise _ => True
      end
  end.
Proof.
  destruct item_id as [[|c id]|]; [done| |done]. unfold scrape_api, bind.
  pose proof (scrape_urls_returns_None env (String c id)
                (output_html_of (String c id)) (rankings_csv_of (String c id))
                w) as Hnone.
  destruct (scrape_urls _ _ _ _ w) as [[v|e] w']; simpl in *; [|done].
  by rewrite Hnone.
Qed.

(** X7: the path strings the handler builds determine the identifier: two
    identifiers that differ give different page path strings and different
    rows path strings, and no page path string is a rows path string.
    (This is about the strings: two of them may still name one file, as
    with the identifiers "a/b" and "a//b".) *)
Theorem artifact_paths_distinct a b :
  (output_html_of a = output_html_of b → a = b)
  ∧ (rankings_csv_of a = rankings_csv_of b → a = b)
  ∧ output_html_of a ≠ rankings_csv_of b.
Proof.
  unfold output_html_of, rankings_csv_of. repeat split.
  - intros Heq%(inj (String.app _)). by apply append_inj_r in Heq.
  - intros Heq%(inj (String.app _)). by apply append_inj_r in Heq.
  - discriminate.
Qed.

(** X8: for every identifier that is not empty and whose fetch succeeds,
    whenever the handler returns an answer, both saves have gone through:
    the page is stored at the page path of the identifier and, when the
    extraction yields entries (at most 20), the rows at its rows path, which
    is left alone otherwise; and the answer is still the failure message
    with status 500. *)
Theorem handler_stores_artifacts env item_id w soup w1 answer w' :
  item_id ≠ "" →
  fetch_html env item_id headers w = (Ok (Some soup), w1) →
  scrape_api env (Some item_id) w = (Ok answer, w') →
  ∃ rankings,
    answer = (JsonError "データの取得に失敗しました。", 500%Z)
    ∧ (extract_rankings soup 20 w).1 = Ok rankings
    ∧ length rankings ≤ 20
    ∧ files w' !! output_html_of item_id = Some (soup_str env soup)
    ∧ files w' !! rankings_csv_of item_id
      = match rankings with
        | [] => files w !! rankings_csv_of item_id
        | _ :: _ => Some (to_csv env rankings)
        end.
Proof.
  intros Hid Hf Hrun.
  pose proof (fetch_html_keeps_disk env item_id headers w) as [_ Hfl].
  rewrite Hf in Hfl. simpl in Hfl.
  pose proof (artifact_paths_differ item_id item_id) as Hne.
  rewrite extract_rankings_run. simpl.
  assert (length (omap (entry_of soup (get_header_text soup))
                       (slice_to (markers soup) 20)) ≤ 20) as Hlen.
  { unfold slice_to. simpl. etrans; [apply omap_length_le|].
    rewrite length_take. lia. }
  unfold scrape_api in Hrun. destruct item_id as [|c id]; [done|].
  unfold bind in Hrun.
  destruct (scrape_urls env (String c id) (output_html_of (String c id))
              (rankings_csv_of (String c id)) w) as [[v|e] w2] eqn:Hurls;
    [|done].
  pose proof (scrape_urls_returns_None env (String c id)
                (output_html_of (String c id)) (rankings_csv_of (String c id))
                w) as Hnone.
  rewrite Hurls in Hnone. simpl in Hnone. subst v. injection Hrun as <- <-.
  unfold scrape_urls in Hurls. unfold bind at 1 in Hurls. rewrite Hf in Hurls.
  unfold bind at 1 in Hurls.
  destruct (save_html env soup (output_html_of (String c id)) w1)
    as [[[]|e] w3] eqn:Hsave; [|done].
  apply save_html_Ok_inv in Hsave as ->.
  unfold bind at 1 in Hurls. rewrite extract_rankings_run in Hurls.
  eexists. split; [done|]. split; [done|]. split; [done|].
  destruct (omap _ _) as [|r rs].
  - injection Hurls as <-. simpl.
    split; [apply lookup_insert_eq|]. by rewrite lookup_insert_ne, Hfl.
  - unfold bind in Hurls.
    destruct (save_to_csv _ _ _ _) as [[[]|e] w4] eqn:Hcsv; [|done].
    apply save_to_csv_Ok_inv in Hcsv as ->. injection Hurls as <-. simpl.
    split; [|apply lookup_insert_eq].
    rewrite lookup_insert_ne by done. apply lookup_insert_eq.
Qed.

Lemma handler_stores_artifacts_witness :
  let env := Pages.env_of (Ok (Pages.response 200)) Pages.scenario_A in
  let w1 := logged Pages.empty_world [EvPrint "Detected encoding: utf-8"] in
  let w' :=
    csv_stored (rankings_csv_of "J0000037910") "csv"
      (html_stored (output_html_of "J0000037910") "<html>" w1) in
  ∃ rankings,
    (JsonError "データの取得に失敗しました。", 500%Z)
    = (JsonError "データの取得に失敗しました。", 500%Z)
    ∧ (extract_rankings Pages.scenario_A 20 Pages.empty_world).1 = Ok rankings
    ∧ length rankings ≤ 20
    ∧ files w' !! output_html_of "J0000037910"
      = Some (soup_str env Pages.scenario_A)
    ∧ files w' !! rankings_csv_of "J0000037910"
      = match rankings with
        | [] => files Pages.empty_world !! rankings_csv_of "J0000037910"
        | _ :: _ => Some (to_csv env rankings)
        end.
Proof.
  intros env w1 w'.
  apply (handler_stores_artifacts env "J0000037910" Pages.empty_world
           Pages.scenario_A w1
           (JsonError "データの取得に失敗しました。", 500%Z) w');
    [discriminate|reflexivity|reflexivity].
Defined.

(** X9: whatever the network answers and whether the run returns or raises,
    [scrape_urls] removes no directory and changes no file other than
    [output_html] and [rankings_csv], and the handler changes no file other
    than the two artifact paths of its identifier. *)
Theorem pipeline_touches_only_artifacts env :
  (∀ url html csv, touches_only [html; csv] (scrape_urls env url html csv))
  ∧ (∀ item_id,
       touches_only
         (match item_id with
          | Some id => [output_html_of id; rankings_csv_of id]
          | None => []
          end)
         (scrape_api env item_id)).
Proof.
  split; [intros; apply touches_scrape_urls|].
  intros [[|c id]|]; [apply touches_ret| |apply touches_ret].
  unfold scrape_api. apply touches_bind; [apply touches_scrape_urls|].
  intros [[|e es]|]; apply touches_ret.
Qed.

End PipelineExtras.

(** ** More facts about the page tree and the extraction *)

Module ExtractMoreFacts.
Import Soup SoupFacts ExtractFacts.

(** A lookup on the element at [r] is the lookup below that element, moved
    to [r]. *)
Lemma find_relative soup r e name cls :
  node_at soup r = Some e →
  find soup r name cls = app r <$> find_below e name cls.
Proof.
  intros He. unfold find, find_all, find_below. rewrite He.
  by destruct (filter _ _).
Qed.

Lemma get_text_relative soup r e q :
  node_at soup r = Some e → get_text soup (r ++ q) = get_text e q.
Proof. intros He. unfold get_text. by rewrite node_at_app, He. Qed.

Lemma get_attr_relative soup r e q key :
  node_at soup r = Some e → get_attr soup (r ++ q) key = get_attr e q key.
Proof. intros He. unfold get_attr, attrs_of. by rewrite node_at_app, He. Qed.

Lemma proper_prefixes_length p : length (proper_prefixes p) = length p.
Proof.
  induction p as [|i p IH]; [done|]. simpl. rewrite length_fmap. f_equal.
  exact IH.
Qed.

Lemma proper_prefixes_lookup p k :
  k < length p → proper_prefixes p !! k = Some (take k p).
Proof.
  revert k. induction p as [|i p IH]; intros k Hk; simpl in *; [lia|].
  destruct k as [|k]; [done|]. simpl. rewrite list_lookup_fmap, IH by lia.
  done.
Qed.

(** The enclosing elements of [p], nearest first. *)
Lemma parents_lookup p j :
  j < length p → parents p !! j = Some (take (length p - S j) p).
Proof.
  intros Hj. unfold parents.
  pose proof (proper_prefixes_length p) as Hlen. unfold ref in *.
  etrans; [apply reverse_lookup; lia|].
  etrans; [|apply (proper_prefixes_lookup p (length p - S j)); lia].
  f_equal. lia.
Qed.

Lemma omap_nil_iff {A B} (f : A → option B) l :
  omap f l = [] ↔ ∀ x, x ∈ l → f x = None.
Proof.
  induction l as [|x l IH]; csimpl.
  - split; [by intros _ ? ?%elem_of_nil|done].
  - destruct (f x) as [y|] eqn:Hx.
    + split; [done|]. intros Hall. specialize (Hall x). rewrite Hx in Hall.
      by discriminate Hall; left.
    + rewrite IH. split.
      * intros Hl z [->|Hz]%elem_of_cons; auto.
      * intros Hl z Hz. apply Hl. by right.
Qed.


Lemma slice_to_prefix {A} (l : list A) n n' :
  (0 ≤ n ≤ n')%Z → slice_to l n `prefix_of` slice_to l n'.
Proof.
  intros [H0 Hn]. unfold slice_to.
  rewrite (proj2 (Z.leb_le 0 n)), (proj2 (Z.leb_le 0 n')) by lia.
  exists (drop (Z.to_nat n) (take (Z.to_nat n') l)).
  rewrite <- (take_drop (Z.to_nat n) (take (Z.to_nat n') l)) at 1.
  f_equal. rewrite take_take. f_equal. lia.
Qed.

End ExtractMoreFacts.

(** ** Further properties of the extraction *)

Module ExtractExtras.
Import Soup SoupFacts ExtractFacts ExtractMoreFacts.

(** X10: [extract_rankings] never raises: the rank lookup inside the row of
    a marker always finds a marker, so the [get_text] on its result cannot
    fail.  The run leaves directories and files alone, and prints its one
    line exactly when the page has no marker. *)
Theorem extraction_never_raises soup top_n w :
  ∃ es w',
    extract_rankings soup top_n w = (Ok es, w')
    ∧ dirs w' = dirs w ∧ files w' = files w
    ∧ events w'
      = events w
        ++ match markers soup with
           | [] => [EvPrint "ランキングリストが見つかりませんでした。"]
           | _ :: _ => []
           end.
Proof. rewrite extract_rankings_run. by do 2 eexists. Qed.

(** X11: the result is empty exactly when none of the markers the loop
    visits has an enclosing row; in particular a page without markers, and
    [top_n = 0], give the empty list. *)
Theorem no_entries_iff soup top_n w :
  ((extract_rankings soup top_n w).1 = Ok []
   ↔ ∀ m, m ∈ slice_to (markers soup) top_n → row_of soup m = None)
  ∧ (markers soup = [] → (extract_rankings soup top_n w).1 = Ok [])
  ∧ (extract_rankings soup 0 w).1 = Ok [].
Proof.
  assert ((extract_rankings soup top_n w).1 = Ok []
          ↔ ∀ m, m ∈ slice_to (markers soup) top_n → row_of soup m = None)
    as Hiff.
  { rewrite extract_rankings_run. simpl. split.
    - intros [= Hnil] m Hm. pose proof Hm as Hm'%elem_of_slice_to.
      destruct (row_of soup m) as [r|] eqn:Hr; [|done].
      destruct (entry_of_marker soup (get_header_text soup) m r Hm' Hr)
        as [e He].
      rewrite omap_nil_iff in Hnil. by rewrite (Hnil m Hm) in He.
    - intros Hall. f_equal. apply omap_nil_iff. intros m Hm.
      by apply entry_of_no_row, Hall. }
  split; [done|]. split.
  - intros Hnone. apply Hiff. rewrite Hnone. unfold slice_to.
    destruct (0 <=? top_n)%Z; rewrite take_nil; by intros m ?%elem_of_nil.
  - by rewrite extract_rankings_run.
Qed.


(** X13: a smaller [top_n] only cuts the tail: for [0 <= n <= n'] the
    entries for [n] are the first entries for [n']. *)
Theorem fewer_top_n_is_prefix soup n n' w w' :
  (0 ≤ n ≤ n')%Z →
  ∃ es es', (extract_rankings soup n w).1 = Ok es
    ∧ (extract_rankings soup n' w').1 = Ok es'
    ∧ es `prefix_of` es'.
Proof.
  intros Hn. rewrite !extract_rankings_run. do 2 eexists.
  split; [done|]. split; [done|].
  destruct (slice_to_prefix (markers soup) n n' Hn) as [k ->].
  rewrite omap_app. by eexists.
Qed.

Lemma fewer_top_n_is_prefix_witness :
  ∃ es es',
    (extract_rankings Pages.twin_markers 1 Pages.empty_world).1 = Ok es
    ∧ (extract_rankings Pages.twin_markers 20 Pages.empty_world).1 = Ok es'
    ∧ es `prefix_of` es'.
Proof.
  apply (fewer_top_n_is_prefix Pages.twin_markers 1 20 Pages.empty_world
           Pages.empty_world). lia.
Defined.

(** X14: the row of a marker is its innermost enclosing [tr]: it lies
    strictly above the marker, is a [tr], and no element strictly between
    the two is a [tr]. *)
Theorem row_is_innermost soup m row :
  row_of soup m = Some row →
  ∃ q, m = row ++ q ∧ q ≠ []
    ∧ has_name soup "tr" row = true
    ∧ ∀ q1 q2, q = q1 ++ q2 → q1 ≠ [] → q2 ≠ [] →
        has_name soup "tr" (row ++ q1) = false.
Proof.
  intros Hrow. pose proof Hrow as [(q & -> & Hq) Hname]%find_parent_Some.
  exists q. do 3 (split; [done|]). intros q1 q2 -> Hq1 Hq2.
  unfold row_of, find_parent in Hrow.
  destruct (list_find _ _) as [[i r]|] eqn:Hfind; simplify_eq/=.
  apply list_find_Some in Hfind as (Hi & _ & Hbefore).
  assert (i < length (row ++ q1 ++ q2)) as Hilt.
  { apply lookup_lt_Some in Hi. unfold parents in Hi.
    by rewrite length_reverse, proper_prefixes_length in Hi. }
  rewrite parents_lookup in Hi by done. injection Hi as Hi.
  assert (length row = length (row ++ q1 ++ q2) - S i) as Hlen.
  { apply (f_equal length) in Hi. rewrite length_take in Hi. lia. }
  rewrite !length_app in Hlen, Hilt.
  assert (0 < length q1 ∧ 0 < length q2) as [? ?]
    by (destruct q1, q2; simpl; try done; lia).
  destruct (has_name soup "tr" (row ++ q1)) eqn:Hmid; [|done].
  destruct (Hbefore (length q2 - 1) (row ++ q1)); [|lia|by rewrite Hmid].
  rewrite parents_lookup by (rewrite !length_app; lia).
  f_equal. rewrite (assoc_L (++)). rewrite take_app_length'; [done|].
  rewrite !length_app. lia.
Qed.

Lemma row_is_innermost_witness :
  ∃ q, [0; 0; 1; 0; 0; 0; 0] = [0; 0; 1; 0; 0] ++ q ∧ q ≠ []
    ∧ has_name nested_rows "tr" [0; 0; 1; 0; 0] = true
    ∧ ∀ q1 q2, q = q1 ++ q2 → q1 ≠ [] → q2 ≠ [] →
        has_name nested_rows "tr" ([0; 0; 1; 0; 0] ++ q1) = false.
Proof.
  apply (row_is_innermost nested_rows [0; 0; 1; 0; 0; 0; 0] [0; 0; 1; 0; 0]).
  reflexivity.
Defined.

(** X15: the entry of a marker is a function of the header text and of the
    subtree of its row alone: two markers, on the same page or on two
    pages, whose rows hold the same subtree get the same entry. *)
Theorem entry_depends_on_row_only soup soup' h m m' row row' :
  row_of soup m = Some row → row_of soup' m' = Some row' →
  node_at soup row = node_at soup' row' →
  entry_of soup h m = entry_of soup' h m'.
Proof.
  intros Hrow Hrow' Hsame.
  pose proof Hrow as [_ [e He]%has_name_node]%find_parent_Some.
  assert (node_at soup' row' = Some e) as He' by congruence.
  unfold entry_of, extract_row. unfold row_of in Hrow, Hrow'.
  rewrite Hrow, Hrow'.
  rewrite !(find_relative soup row e), !(find_relative soup' row' e) by done.
  destruct (find_below e "span" (Some "p-PTRank")) as [t|]; simpl; [|done].
  unfold bind, ret. simpl.
  destruct (find_below e "p" (Some "p-PTPrice_price")) as [t1|],
           (find_below e "p" (Some "p-PTPrice_sub")) as [t2|],
           (find_below e "button" (Some "p-PTShipping_btn")) as [t3|],
           (find_below e "p" (Some "p-PTStock")) as [t4|],
           (find_below e "a" (Some "p-PTShopData_name_link")) as [t5|],
           (find_below e "span" (Some "p-PTShopData_name_area")) as [t6|];
    simpl;
    by rewrite ?(get_text_relative soup row e),
               ?(get_text_relative soup' row' e),
               ?(get_attr_relative soup row e),
               ?(get_attr_relative soup' row' e).
Qed.

Lemma entry_depends_on_row_only_witness :
  entry_of nested_rows "h" [0; 0; 1; 0; 0; 0; 0]
  = entry_of inner_row_alone "h" [0; 0; 0; 0].
Proof.
  apply (entry_depends_on_row_only nested_rows inner_row_alone "h"
           [0; 0; 1; 0; 0; 0; 0] [0; 0; 0; 0] [0; 0; 1; 0; 0] [0; 0]);
    reflexivity.
Defined.

(** The lookups of a row see the rows nested in it: the outer row has no
    stock tag of its own and takes the one of the inner row. *)
Example outer_row_reads_inner_row :
  ∃ es, (extract_rankings nested_rows 20 Pages.empty_world).1 = Ok es
    ∧ Rank <$> es = ["1"; "2"]
    ∧ Stock <$> es = ["In stock"; "In stock"].
Proof. eexists. repeat split; reflexivity. Qed.



End ExtractExtras.
